(** * Codex CLI helper: discovery, sandbox preparation and guarded execution

    A shallow embedding of [amplifier/codex_cli.py] (class [CodexCLI] and its
    exception and result types) together with the part of
    [amplifier/config/codex.py] it reads ([CodexSettings]).

    Python strings are byte strings here (the UTF-8 encoding of the Python
    text), integers are [Z], [Optional[T]] is [option T].  The platform is
    POSIX: paths are those of [posixpath], and [subprocess] behaves as it
    does there.  Exceptions the module does not catch are part of the
    model: they leave its functions as they are.  The operating
    system (process spawning, the executable search path, the terminal
    operator, path canonicalisation, directory permissions) is a record of
    oracles, [World]; everything the code mutates (the binary cache on
    [self], the directory tree) and everything it does to the outside (the
    processes it spawns, the prompts it shows) is threaded through an
    explicit state. *)

From Stdlib Require Import ZArith Ascii String DecimalString DecimalPos DecimalZ.
From stdpp Require Import gmap strings list.

Local Open Scope Z_scope.

(** ** Python primitives used by the module *)

Module Py.

(** Truthiness of an [Optional[str]]: [None] and the empty string are
    falsy, every other string is truthy. *)
Definition truthy (o : option string) : bool :=
  match o with
  | Some (String _ _) => true
  | _ => false
  end.

(** [a or b] where [a : Optional[str]] and [b : str]. *)
Definition or_else (a : option string) (b : string) : string :=
  match a with
  | Some (String c r) => String c r
  | _ => b
  end.

(** [str(n)] for an [int]. *)
Definition str_of_int (n : Z) : string :=
  NilZero.string_of_int (Z.to_int n).

(** [os.path.isabs] of [posixpath]: the path starts with a slash. *)
Definition isabs (p : string) : bool :=
  match p with
  | String c _ => bool_decide (c = "/"%char)
  | EmptyString => false
  end.

(** The characters [str.strip()] removes are those of [str.isspace]:
    U+0009 to U+000D, U+001C to U+0020, U+0085, U+00A0, U+1680, U+2000 to
    U+200A, U+2028, U+2029, U+202F, U+205F and U+3000.  In the UTF-8
    encoding they take one, two or three bytes. *)
Definition is_space (c : ascii) : bool :=
  let n := nat_of_ascii c in
  ((9 <=? n)%nat && (n <=? 13)%nat) || ((28 <=? n)%nat && (n <=? 32)%nat).

Definition is_space2 (a b : ascii) : bool :=
  (nat_of_ascii a =? 194)%nat
  && ((nat_of_ascii b =? 133)%nat || (nat_of_ascii b =? 160)%nat).

Definition is_space3 (a b c : ascii) : bool :=
  let x := nat_of_ascii a in
  let y := nat_of_ascii b in
  let z := nat_of_ascii c in
  ((x =? 225)%nat && (y =? 154)%nat && (z =? 128)%nat)
  || ((x =? 226)%nat && (y =? 128)%nat
      && (((128 <=? z)%nat && (z <=? 138)%nat)
          || (z =? 168)%nat || (z =? 169)%nat || (z =? 175)%nat))
  || ((x =? 226)%nat && (y =? 129)%nat && (z =? 159)%nat)
  || ((x =? 227)%nat && (y =? 128)%nat && (z =? 128)%nat).

(** Drop the whitespace characters at the front of a list of bytes. *)
Fixpoint lstrip_bytes (l : list ascii) : list ascii :=
  match l with
  | a :: r =>
      if is_space a then lstrip_bytes r
      else
        match r with
        | b :: r2 =>
            if is_space2 a b then lstrip_bytes r2
            else
              match r2 with
              | c :: r3 => if is_space3 a b c then lstrip_bytes r3 else l
              | [] => l
              end
        | [] => l
        end
  | [] => []
  end.

(** The same on the reversed list: the bytes of a character come last
    byte first. *)
Fixpoint lstrip_reversed (l : list ascii) : list ascii :=
  match l with
  | c :: r =>
      if is_space c then lstrip_reversed r
      else
        match r with
        | b :: r2 =>
            if is_space2 b c then lstrip_reversed r2
            else
              match r2 with
              | a :: r3 => if is_space3 a b c then lstrip_reversed r3 else l
              | [] => l
              end
        | [] => l
        end
  | [] => []
  end.

Definition lstrip (s : string) : string :=
  string_of_list_ascii (lstrip_bytes (list_ascii_of_string s)).

Definition rstrip (s : string) : string :=
  string_of_list_ascii
    (rev (lstrip_reversed (rev (list_ascii_of_string s)))).

Definition strip (s : string) : string := rstrip (lstrip s).

(** [sep.join(parts)]. *)
Fixpoint join (sep : string) (parts : list string) : string :=
  match parts with
  | [] => EmptyString
  | [p] => p
  | p :: ps => p +:+ sep +:+ join sep ps
  end.

Definition squote : string := "'".
Definition dquote : string := String (ascii_of_nat 34) EmptyString.
Definition newline : string := String (ascii_of_nat 10) EmptyString.

(** The characters [shlex.quote] leaves alone: [[A-Za-z0-9_@%+=:,./-]]. *)
Definition shlex_safe (c : ascii) : bool :=
  let n := nat_of_ascii c in
  ((48 <=? n)%nat && (n <=? 57)%nat)
  || ((65 <=? n)%nat && (n <=? 90)%nat)
  || ((97 <=? n)%nat && (n <=? 122)%nat)
  || bool_decide (c ∈ ["_"; "@"; "%"; "+"; "="; ":"; ","; "."; "/"; "-"]%char).

Fixpoint all_safe (s : string) : bool :=
  match s with
  | EmptyString => true
  | String c r => shlex_safe c && all_safe r
  end.

(** The replacement [shlex.quote] applies inside the quoted form: every
    single quote becomes single quote, double quote, single quote, double
    quote, single quote (close the quoting, a quoted single quote, reopen). *)
Fixpoint escape_squotes (s : string) : string :=
  match s with
  | EmptyString => EmptyString
  | String c r =>
      if bool_decide (c = "'"%char)
      then squote +:+ dquote +:+ squote +:+ dquote +:+ squote +:+ escape_squotes r
      else String c (escape_squotes r)
  end.

(** [shlex.quote]. *)
Definition shlex_quote (s : string) : string :=
  match s with
  | EmptyString => squote +:+ squote
  | _ => if all_safe s then s else squote +:+ escape_squotes s +:+ squote
  end.

(** [needle in hay] for two strings. *)
Fixpoint contains (needle hay : string) : bool :=
  String.prefix needle hay
  || match hay with
     | String _ rest => contains needle rest
     | EmptyString => false
     end.

End Py.

(** ** Settings ([amplifier/config/codex.py])

    [CodexSettings] is plain data.  [sandbox] is a [Path]; the class declares
    it non-optional but [resolve_sandbox] tests it against [None], so it is
    optional here. *)

Record CodexSettings := {
  bin : option string;
  sandbox : option string;
  default_mode : string;
  default_timeout : option Z
}.

(** ** Error and result types ([amplifier/codex_cli.py], lines 16-53) *)

(** A value that is a [str] or a [bytes] object.  The [stdout] attribute of
    the execution error is annotated [str], but on a timeout the code stores
    there what [subprocess.TimeoutExpired] carries, which on POSIX is
    [bytes].  A [string] is read as a [str] where one is expected. *)
Inductive str_or_bytes :=
| Str (s : string)
| Bytes (b : string).

Coercion Str : string >-> str_or_bytes.

Record CodexExecutionError := {
  err_command : list string;
  err_returncode : Z;
  err_stdout : str_or_bytes;
  err_stderr : string;
  err_message : string
}.

(** [CodexExecutionError.__init__]: [self.message = message or <default>]. *)
Definition mkCodexExecutionError (command : list string) (returncode : Z)
    (stdout : str_or_bytes) (stderr : string) (message : option string)
    : CodexExecutionError :=
  {| err_command := command;
     err_returncode := returncode;
     err_stdout := stdout;
     err_stderr := stderr;
     err_message := Py.or_else message "Codex execution failed" |}.

(** What [os.mkdir] can fail with: [FileExistsError], [FileNotFoundError],
    [NotADirectoryError], [PermissionError] (all of them [OSError]). *)
Inductive os_errno := EEXIST | ENOENT | ENOTDIR | EACCES.

(** The exceptions of Python itself that the module lets through: what
    [subprocess.run] raises besides [FileNotFoundError] and
    [TimeoutExpired] ([PermissionError] for a directory or a file without
    the execute bit, [NotADirectoryError], any other [OSError] with its
    errno, [UnicodeDecodeError] for output that is not text, [ValueError]
    for an argument with a null byte), the [TypeError] of adding [bytes]
    and [str], and the [RuntimeError] of [Path.expanduser] and
    [Path.resolve]. *)
Inductive py_exc :=
| PermissionError
| NotADirectoryError
| OtherOSError (errno : Z)
| UnicodeDecodeError
| ValueError
| TypeError
| RuntimeError.

(** The exceptions that leave the module: its own four, and the ones it
    does not catch. *)
Inductive exn :=
| CodexUnavailableError (msg : string)
| CodexSandboxError (msg : string)
| ExecutionError (e : CodexExecutionError)
| CodexExecutionCancelled (msg : string)
| Uncaught (e : py_exc).

Record CodexRunResult := {
  command : list string;
  returncode : option Z;
  stdout : string;
  stderr : string;
  dry_run : bool
}.

(** [CodexRunResult.command_display] and line 185 of [execute]. *)
Definition command_display (cmd : list string) : string :=
  Py.join " " (map Py.shlex_quote cmd).

(** ** The directory tree

    A canonical absolute path is the list of its components, the leaf
    first (so the parent of a path is its tail and the root is [[]]).  The
    tree records what exists at each path; the root always exists and is a
    directory.  Symbolic links are not modelled. *)

Abbreviation path := (list string).

Inductive node := Dir | File.

Definition kind_at (t : gmap path node) (p : path) : option node :=
  match p with
  | [] => Some Dir
  | _ => t !! p
  end.

(** [str(path)] *)
Definition path_str (p : path) : string :=
  "/" +:+ Py.join "/" (rev p).

(** [Path.is_dir()] *)
Definition is_dir (t : gmap path node) (p : path) : bool :=
  match kind_at t p with
  | Some Dir => true
  | _ => false
  end.

(** ** The outside world *)

(** What becomes of a command that is started and waited for without a
    time limit: it exits with a status and its two streams as text, or
    [subprocess.run] raises [FileNotFoundError], or it raises something
    else.  (A process that never exits makes the call block for ever; that
    is not modelled.) *)
Inductive spawn_outcome :=
| Exits (rc : Z) (out err : string)
| SpawnNotFound
| SpawnRaises (e : py_exc).

(** What [subprocess.run(..., capture_output=True, text=True, timeout=t)]
    can do: return a completed process, raise [TimeoutExpired], raise
    [FileNotFoundError], or raise something else.  On POSIX the [stdout] and
    [stderr] of [TimeoutExpired] are the [bytes] read so far, or [None] when
    nothing was read, also under [text=True]. *)
Inductive proc_outcome :=
| Completed (rc : Z) (out err : string)
| TimedOut (out err : option string)
| NotFound
| Escapes (e : py_exc).

(** A sandbox argument is a [Path] or a [str]; they differ in truthiness
    only (a [Path] is always truthy, the empty [str] is falsy). *)
Inductive path_or_str :=
| PPath (s : string)
| PStr (s : string).

Definition src_string (s : path_or_str) : string :=
  match s with PPath x | PStr x => x end.

Definition src_truthy (o : option path_or_str) : bool :=
  match o with
  | Some (PPath _) => true
  | Some (PStr s) => Py.truthy (Some s)
  | None => false
  end.

Record World := {
  (** [os.access(p, os.X_OK)] *)
  os_access_x : string -> bool;
  (** [shutil.which(name)] *)
  shutil_which : string -> option string;
  (** what becomes of a command run without a time limit *)
  spawn : list string -> spawn_outcome;
  (** whether a command that can be started is still running after the
      given number of seconds, and then the bytes read so far from its
      output and error streams *)
  cut_off : list string -> Z -> option (option string * option string);
  (** what the operator types at a prompt; [None] is the bare Enter key,
      on which [click.confirm] returns its default *)
  operator_answer : string -> option bool;
  (** [Path(s).expanduser().resolve()] for the current home and working
      directory: the canonical path, or the exception raised
      ([RuntimeError] for an unknown [~user] or a loop of symbolic links) *)
  path_resolve : string -> py_exc + path;
  (** whether the process may create an entry in the directory *)
  may_create_in : path -> bool
}.

(** Whether [subprocess.run] raises the exception when it starts the
    process.  [UnicodeDecodeError] comes later, from decoding the output of
    a process that has exited. *)
Definition raised_at_launch (e : py_exc) : bool :=
  match e with
  | UnicodeDecodeError => false
  | _ => true
  end.

(** The behaviour of [subprocess.run] on a command and a timeout.  A
    failure to start the process comes first; a process that was started
    and is cut off raises [TimeoutExpired]; otherwise the call ends as it
    does without a time limit.  Without a timeout [TimeoutExpired] cannot be
    raised. *)
Definition subprocess_run (w : World) (cmd : list string) (timeout : option Z)
    : proc_outcome :=
  let expired :=
    match timeout with
    | Some t => cut_off w cmd t
    | None => None
    end in
  match spawn w cmd with
  | SpawnNotFound => NotFound
  | SpawnRaises e =>
      if raised_at_launch e then Escapes e
      else
        match expired with
        | Some (o, e') => TimedOut o e'
        | None => Escapes e
        end
  | Exits rc out err =>
      match expired with
      | Some (o, e) => TimedOut o e
      | None => Completed rc out err
      end
  end.

(** ** The state the code threads

    [self] carries the three instance fields ([_cached_binary] is the only
    one ever assigned after [__init__]); [fs] is the directory tree;
    [run_calls] and [prompts] record, oldest first, every call of
    [subprocess.run] (command and timeout) and every prompt shown (text and
    default). *)

Record CodexCLI := {
  settings : CodexSettings;
  _binary_override : option string;
  _cached_binary : option string
}.

Record State := {
  self : CodexCLI;
  fs : gmap path node;
  run_calls : list (list string * option Z);
  prompts : list (string * bool)
}.

(** [CodexCLI.__init__] when settings are given. *)
Definition CodexCLI_init (s : CodexSettings) (codex_bin : option string) : CodexCLI :=
  {| settings := s; _binary_override := codex_bin; _cached_binary := None |}.

(** ** A state-and-exception monad *)

Inductive res (A : Type) :=
| Ok (a : A)
| Raise (e : exn).
Arguments Ok {A} a.
Arguments Raise {A} e.

Definition M (A : Type) : Type := State -> res A * State.

Definition ret {A} (a : A) : M A := fun st => (Ok a, st).

Definition raise {A} (e : exn) : M A := fun st => (Raise e, st).

Definition bind {A B} (m : M A) (k : A -> M B) : M B :=
  fun st =>
    match m st with
    | (Ok a, st') => k a st'
    | (Raise e, st') => (Raise e, st')
    end.

Notation "x <- m ;; k" := (bind m (fun x => k))
  (at level 100, m at next level, right associativity).
Notation "m ;;; k" := (bind m (fun _ => k))
  (at level 100, right associativity).

(** The four ways the code changes the state. *)
Definition with_cached (binary : string) (st : State) : State :=
  {| self := {| settings := settings (self st);
                _binary_override := _binary_override (self st);
                _cached_binary := Some binary |};
     fs := fs st; run_calls := run_calls st; prompts := prompts st |}.

Definition with_fs (t : gmap path node) (st : State) : State :=
  {| self := self st; fs := t;
     run_calls := run_calls st; prompts := prompts st |}.

Definition with_run_call (cmd : list string) (timeout : option Z) (st : State) : State :=
  {| self := self st; fs := fs st;
     run_calls := run_calls st ++ [(cmd, timeout)];
     prompts := prompts st |}.

Definition with_prompt (prompt : string) (default : bool) (st : State) : State :=
  {| self := self st; fs := fs st; run_calls := run_calls st;
     prompts := prompts st ++ [(prompt, default)] |}.

Definition get_self : M CodexCLI := fun st => (Ok (self st), st).

Definition get_fs : M (gmap path node) := fun st => (Ok (fs st), st).

Definition put_fs (t : gmap path node) : M unit :=
  fun st => (Ok tt, with_fs t st).

(** [self._cached_binary = binary] *)
Definition set_cached_binary (binary : string) : M unit :=
  fun st => (Ok tt, with_cached binary st).

(** [subprocess.run(cmd, capture_output=True, text=True, timeout=timeout)]:
    the call is recorded and the world decides its outcome. *)
Definition run_subprocess (w : World) (cmd : list string) (timeout : option Z)
    : M proc_outcome :=
  fun st => (Ok (subprocess_run w cmd timeout), with_run_call cmd timeout st).

(** [subprocess.run(cmd, capture_output=True, text=True)], the call without
    a [timeout] argument: it is recorded with no timeout and cannot raise
    [TimeoutExpired]. *)
Definition run_subprocess_untimed (w : World) (cmd : list string)
    : M spawn_outcome :=
  fun st => (Ok (spawn w cmd), with_run_call cmd None st).

(** [click.confirm(prompt, default=default)]: the prompt is recorded; the
    bare Enter key gives the default. *)
Definition click_confirm (w : World) (prompt : string) (default : bool) : M bool :=
  fun st =>
    (Ok (match operator_answer w prompt with
         | Some b => b
         | None => default
         end),
     with_prompt prompt default st).

(** ** Discovery helpers (lines 67-121) *)

Definition msg_not_found : string := "Codex binary not found".

Definition msg_not_executable (binary detail : string) : string :=
  "Codex binary at '" +:+ binary +:+ "' is not executable: " +:+ Py.strip detail.

Definition msg_unable_to_locate : string :=
  "Unable to locate the Codex CLI. Set AMPLIFIER_CODEX_BIN or use --codex-bin.".

(** [_verify_binary]: run [binary --version] with [check=True].  The two
    exceptions the code catches, [FileNotFoundError] and the
    [CalledProcessError] of a non-zero exit, become
    [CodexUnavailableError]; any other exception of [subprocess.run] passes
    through. *)
Definition _verify_binary (w : World) (binary : string) : M string :=
  o <- run_subprocess_untimed w [binary; "--version"] ;;
  match o with
  | SpawnNotFound => raise (CodexUnavailableError msg_not_found)
  | Exits rc out err =>
      if bool_decide (rc = 0) then ret binary
      else
        let stderr := Py.or_else (Some err) (Py.or_else (Some out) EmptyString) in
        raise (CodexUnavailableError (msg_not_executable binary stderr))
  | SpawnRaises e => raise (Uncaught e)
  end.

(** [_resolve_single_candidate] *)
Definition _resolve_single_candidate (w : World) (candidate : string)
    : M (option string) :=
  if Py.isabs candidate && os_access_x w candidate then
    b <- _verify_binary w candidate ;; ret (Some b)
  else
    let resolved := shutil_which w candidate in
    if Py.truthy resolved then
      b <- _verify_binary w (Py.or_else resolved EmptyString) ;; ret (Some b)
    else ret None.

(** Lines 73-79 of [resolve_binary]: the candidate list. *)
Definition candidates_of (cli : CodexCLI) : list string :=
  let candidates : list string := [] in
  let candidates :=
    match _binary_override cli with
    | Some (String c r) => candidates ++ [String c r]
    | _ => candidates
    end in
  let candidates :=
    match bin (settings cli) with
    | Some (String c r) =>
        if bool_decide (String c r ∈ candidates) then candidates
        else candidates ++ [String c r]
    | _ => candidates
    end in
  if bool_decide ("codex" ∈ candidates) then candidates
  else candidates ++ ["codex"].

(** Lines 81-89 of [resolve_binary]: the loop over the candidates and the
    error after it. *)
Fixpoint try_candidates (w : World) (candidates : list string) : M string :=
  match candidates with
  | [] => raise (CodexUnavailableError msg_unable_to_locate)
  | candidate :: rest =>
      binary <- _resolve_single_candidate w candidate ;;
      match binary with
      | Some (String c r) =>
          set_cached_binary (String c r) ;;; ret (String c r)
      | _ => try_candidates w rest
      end
  end.

Definition resolve_binary (w : World) : M string :=
  cli <- get_self ;;
  match _cached_binary cli with
  | Some (String c r) => ret (String c r)
  | _ => try_candidates w (candidates_of cli)
  end.

(** ** Sandbox helpers (lines 126-144) *)

(** Whether a regular file sits at the path or above it. *)
Fixpoint has_file_above (t : gmap path node) (p : path) : bool :=
  match p with
  | [] => false
  | _ :: parent =>
      match kind_at t p with
      | Some File => true
      | _ => has_file_above t parent
      end
  end.

(** [os.mkdir(p)] on the tree; a failure names the path, as [OSError.filename]
    does.  Below a regular file the kernel answers [ENOTDIR], however many
    levels are missing in between; [ENOENT] is for a missing parent that a
    file does not cut off. *)
Definition os_mkdir (w : World) (t : gmap path node) (p : path)
    : (os_errno * path) + gmap path node :=
  match kind_at t p with
  | Some _ => inl (EEXIST, p)
  | None =>
      if has_file_above t (tail p) then inl (ENOTDIR, p)
      else
        match kind_at t (tail p) with
        | None => inl (ENOENT, p)
        | Some File => inl (ENOTDIR, p)
        | Some Dir =>
            if may_create_in w (tail p) then inr (<[p := Dir]> t)
            else inl (EACCES, p)
        end
  end.

(** [Path.mkdir(parents=True, exist_ok=True)], as [pathlib] writes it: try
    [os.mkdir]; on [FileNotFoundError] create the parent the same way and
    then the directory itself with [parents=False]; on any other [OSError]
    succeed if the path is a directory and re-raise otherwise.  The result
    is the error raised, if any, and the tree as the call leaves it (a
    failure keeps the parents already created). *)
Fixpoint mkdir_parents (w : World) (t : gmap path node) (p : path)
    : option (os_errno * path) * gmap path node :=
  match os_mkdir w t p with
  | inr t' => (None, t')
  | inl (ENOENT, q) =>
      match p with
      | [] => (Some (ENOENT, q), t)
      | _ :: parent =>
          match mkdir_parents w t parent with
          | (Some e, t1) => (Some e, t1)
          | (None, t1) =>
              match os_mkdir w t1 p with
              | inr t2 => (None, t2)
              | inl (ENOENT, q') => (Some (ENOENT, q'), t1)
              | inl e => if is_dir t1 p then (None, t1) else (Some e, t1)
              end
          end
      end
  | inl e => if is_dir t p then (None, t) else (Some e, t)
  end.

(** [str(exc)] for the [OSError] of a failed [mkdir]. *)
Definition oserror_str (e : os_errno * path) : string :=
  match fst e with
  | EEXIST => "[Errno 17] File exists: '"
  | ENOENT => "[Errno 2] No such file or directory: '"
  | ENOTDIR => "[Errno 20] Not a directory: '"
  | EACCES => "[Errno 13] Permission denied: '"
  end +:+ path_str (snd e) +:+ "'".

Definition msg_sandbox_not_configured : string :=
  "Sandbox directory is not configured. Use --sandbox or AMPLIFIER_CODEX_SANDBOX.".

Definition resolve_sandbox (w : World) (sandbox_override : option path_or_str)
    : M path :=
  cli <- get_self ;;
  let sandbox_source :=
    if src_truthy sandbox_override then sandbox_override
    else PPath <$> sandbox (settings cli) in
  match sandbox_source with
  | None => raise (CodexSandboxError msg_sandbox_not_configured)
  | Some src =>
      match path_resolve w (src_string src) with
      | inl e => raise (Uncaught e)
      | inr sandbox_path =>
          t <- get_fs ;;
          match mkdir_parents w t sandbox_path with
          | (Some e, t') =>
              put_fs t' ;;;
              raise (CodexSandboxError
                       ("Unable to create sandbox directory '"
                        +:+ path_str sandbox_path
                        +:+ "': " +:+ oserror_str e))
          | (None, t') =>
              put_fs t' ;;;
              if is_dir t' sandbox_path then ret sandbox_path
              else raise (CodexSandboxError
                            ("Sandbox path '" +:+ path_str sandbox_path
                             +:+ "' is not a directory"))
          end
      end
  end.

(** ** Execution helpers (lines 149-233) *)

(** Line 164: [mode or self.settings.default_mode or <suggest>]. *)
Definition effective_mode_of (s : CodexSettings) (mode : option string) : string :=
  Py.or_else mode (Py.or_else (Some (default_mode s)) "suggest").

(** Line 165: membership in the set of the two supported modes. *)
Definition mode_supported (m : string) : bool :=
  bool_decide (m ∈ ["suggest"; "auto"]).

Definition msg_unsupported_mode (m : string) : string :=
  "Unsupported Codex mode '" +:+ m +:+ "'.".

(** Line 180: [timeout if timeout is not None else self.settings.default_timeout]. *)
Definition effective_timeout_of (s : CodexSettings) (timeout : option Z) : option Z :=
  match timeout with
  | Some t => Some t
  | None => default_timeout s
  end.

(** Lines 174-182: the argument vector, extended step by step. *)
Definition build_command (binary effective_mode : string) (sandbox_path : path)
    (context : option string) (dry_run : bool) (effective_timeout : option Z)
    : list string :=
  let command :=
    [binary; "run"; "--mode"; effective_mode; "--sandbox"; path_str sandbox_path] in
  let command :=
    match context with
    | Some (String c r) => command ++ ["--context"; String c r]
    | _ => command
    end in
  let command := if dry_run then command ++ ["--dry-run"] else command in
  match effective_timeout with
  | Some t => command ++ ["--timeout"; Py.str_of_int t]
  | None => command
  end.

Definition prompt_auto : string := "Codex will run in AUTO mode. Proceed?".
Definition prompt_suggest : string := "Execute Codex in SUGGEST mode?".
Definition msg_cancelled : string := "Codex execution cancelled by user".

(** Lines 190-195: the text shown to the operator. *)
Definition confirm_prompt (effective_mode : string) (command : list string) : string :=
  let prompt :=
    if bool_decide (effective_mode = "auto") then prompt_auto else prompt_suggest in
  prompt +:+ Py.newline +:+ command_display command +:+ Py.newline +:+ "Continue?".

(** Lines 187-197: the confirmation gate. *)
Definition confirmation_gate (w : World) (approve : bool)
    (effective_mode : string) (command : list string) : M unit :=
  if approve then ret tt
  else
    answer <- click_confirm w (confirm_prompt effective_mode command) false ;;
    if answer then ret tt
    else raise (CodexExecutionCancelled msg_cancelled).

Definition msg_timed_out : string := "Codex execution timed out".
Definition msg_disappeared : string := "Codex binary disappeared during execution".

(** Lines 215-218: what is appended to the captured standard error on a
    timeout. *)
Definition timeout_note (effective_timeout : option Z) : string :=
  match effective_timeout with
  | Some t => Py.newline +:+ "Timed out after " +:+ Py.str_of_int t +:+ "s"
  | None => EmptyString
  end.

(** [exc.stdout or <empty str>] on a timeout: the bytes read, when there are
    any. *)
Definition bytes_or_empty (o : option string) : str_or_bytes :=
  match o with
  | Some (String c r) => Bytes (String c r)
  | _ => Str EmptyString
  end.

(** Lines 199-233: the dry-run return, the spawn and the mapping of its
    outcome.  On a timeout the error stream of the exception is [bytes];
    when it is not empty, adding the note to it raises [TypeError] and the
    execution error is never built. *)
Definition run_command (w : World) (cmd : list string) (dry : bool)
    (effective_timeout : option Z) : M CodexRunResult :=
  if dry then
    ret {| command := cmd; returncode := None;
           stdout := EmptyString; stderr := EmptyString; dry_run := true |}
  else
    completed <- run_subprocess w cmd effective_timeout ;;
    match completed with
    | TimedOut out err =>
        match err with
        | Some (String _ _) => raise (Uncaught TypeError)
        | _ =>
            raise (ExecutionError
                     (mkCodexExecutionError cmd (-1)
                        (bytes_or_empty out)
                        (EmptyString +:+ timeout_note effective_timeout)
                        (Some msg_timed_out)))
        end
    | NotFound => raise (CodexUnavailableError msg_disappeared)
    | Escapes e => raise (Uncaught e)
    | Completed rc out err =>
        if bool_decide (rc ≠ 0) then
          raise (ExecutionError (mkCodexExecutionError cmd rc out err None))
        else
          ret {| command := cmd; returncode := Some rc;
                 stdout := out; stderr := err; dry_run := false |}
    end.

(** [CodexCLI.execute] *)
Definition execute (w : World) (mode context : option string)
    (sandbox_override : option path_or_str) (dry approve : bool)
    (timeout : option Z) : M CodexRunResult :=
  binary <- resolve_binary w ;;
  sandbox_path <- resolve_sandbox w sandbox_override ;;
  cli <- get_self ;;
  let effective_mode := effective_mode_of (settings cli) mode in
  if negb (mode_supported effective_mode) then
    raise (ExecutionError
             (mkCodexExecutionError [binary] (-1) EmptyString EmptyString
                (Some (msg_unsupported_mode effective_mode))))
  else
    let effective_timeout := effective_timeout_of (settings cli) timeout in
    let cmd :=
      build_command binary effective_mode sandbox_path context dry
        effective_timeout in
    confirmation_gate w approve effective_mode cmd ;;;
    run_command w cmd dry effective_timeout.

(** ** Pure readings of the discovery steps, used to state its properties *)

(** Where [_resolve_single_candidate] finds a candidate, before any
    self-check: the candidate itself when it is an executable absolute path,
    else what the search path gives. *)
Definition locate (w : World) (candidate : string) : option string :=
  if Py.isabs candidate && os_access_x w candidate then Some candidate
  else
    match shutil_which w candidate with
    | Some (String c r) => Some (String c r)
    | _ => None
    end.

(** The first candidate, in priority order, that is found at all. *)
Fixpoint first_located (w : World) (candidates : list string) : option string :=
  match candidates with
  | [] => None
  | c :: rest =>
      match locate w c with
      | Some b => Some b
      | None => first_located w rest
      end
  end.

(** What [_verify_binary] returns or raises, as a function of the outcome
    of the self-check. *)
Definition verify_result (w : World) (binary : string) : res string :=
  match spawn w [binary; "--version"] with
  | SpawnNotFound => Raise (CodexUnavailableError msg_not_found)
  | Exits rc out err =>
      if bool_decide (rc = 0) then Ok binary
      else Raise (CodexUnavailableError
                    (msg_not_executable binary
                       (Py.or_else (Some err) (Py.or_else (Some out) EmptyString))))
  | SpawnRaises e => Raise (Uncaught e)
  end.

(** Whether the self-check of a binary exits with status zero. *)
Definition self_check_ok (w : World) (binary : string) : bool :=
  match spawn w [binary; "--version"] with
  | Exits rc _ _ => bool_decide (rc = 0)
  | _ => false
  end.

(** Whether the self-check ends in one of the two exceptions the code
    catches: it exits non-zero ([CalledProcessError]) or the file to run is
    not found ([FileNotFoundError]). *)
Definition self_check_caught (w : World) (binary : string) : bool :=
  match spawn w [binary; "--version"] with
  | Exits rc _ _ => bool_decide (rc ≠ 0)
  | SpawnNotFound => true
  | SpawnRaises _ => false
  end.

(** A candidate passes verification: it is found and its self-check exits
    with status zero. *)
Definition passes_verification (w : World) (candidate : string) : bool :=
  match locate w candidate with
  | Some b => self_check_ok w b
  | None => false
  end.

(** The state after the gate, when it lets the run through. *)
Definition after_gate (approve : bool) (m : string) (cmd : list string)
    (st : State) : State :=
  if approve then st else with_prompt (confirm_prompt m cmd) false st.

(** The command as the specification words it: a fixed six-element head
    followed by three optional groups. *)
Definition spec_command (binary mode sandbox_dir : string)
    (context : option string) (dry : bool) (timeout : option Z) : list string :=
  [binary; "run"; "--mode"; mode; "--sandbox"; sandbox_dir]
  ++ (if Py.truthy context then ["--context"; Py.or_else context EmptyString] else [])
  ++ (if dry then ["--dry-run"] else [])
  ++ (match timeout with Some t => ["--timeout"; Py.str_of_int t] | None => [] end).

(** ** Concrete worlds for examples *)

Module Demo.

Definition demo_settings : CodexSettings :=
  {| bin := None;
     sandbox := Some "/var/amplifier/codex/sandbox";
     default_mode := "suggest";
     default_timeout := None |}.

(** Canonicalisation on a machine whose working directory is the root. *)
Definition demo_resolve (s : string) : path :=
  if bool_decide (s = "/tmp/sbx") then ["sbx"; "tmp"]
  else if bool_decide (s = "/etc/passwd/sbx") then ["sbx"; "passwd"; "etc"]
  else ["sandbox"; "codex"; "amplifier"; "var"].

(** Two executables exist as absolute paths, [codex] is on the search path
    as [/usr/bin/codex]; the self-check of [/opt/broken/codex] exits with
    status 1, every other self-check exits with status 0.  What the [run]
    command does and what the operator answers are parameters; a [run]
    given as timed out is cut off at any time limit. *)
Definition demo_world (run : proc_outcome) (answer : option bool) : World :=
  {| os_access_x := fun p =>
       bool_decide (p ∈ ["/usr/local/bin/tool-x"; "/opt/broken/codex"]);
     shutil_which := fun n =>
       if bool_decide (n = "codex") then Some "/usr/bin/codex" else None;
     spawn := fun cmd =>
       if bool_decide (cmd = ["/opt/broken/codex"; "--version"]) then
         Exits 1 EmptyString ("boom" +:+ Py.newline)
       else if bool_decide (cmd !! 1%nat = Some "--version") then
         Exits 0 "codex 1.0" EmptyString
       else
         match run with
         | Completed rc out err => Exits rc out err
         | TimedOut _ _ => Exits 0 EmptyString EmptyString
         | NotFound => SpawnNotFound
         | Escapes e => SpawnRaises e
         end;
     cut_off := fun cmd _ =>
       if bool_decide (cmd !! 1%nat = Some "--version") then None
       else
         match run with
         | TimedOut out err => Some (out, err)
         | _ => None
         end;
     operator_answer := fun _ => answer;
     path_resolve := fun s => inr (demo_resolve s);
     may_create_in := fun _ => true |}.

(** A fresh instance on a machine where only [/etc/passwd] (a file) and
    [/etc] exist. *)
Definition demo_state (s : CodexSettings) (codex_bin : option string) : State :=
  {| self := CodexCLI_init s codex_bin;
     fs := {[ ["etc"] := Dir; ["passwd"; "etc"] := File ]};
     run_calls := [];
     prompts := [] |}.

(** A fresh instance whose override is an executable that verifies. *)
Definition fresh : State := demo_state demo_settings (Some "/usr/local/bin/tool-x").

End Demo.

(** ** Further concrete worlds *)

Module Cases.

(** A machine without any Codex executable: nothing is executable, nothing is
    on the search path, no command to run is found. *)
Definition bare_world : World :=
  {| os_access_x := fun _ => false;
     shutil_which := fun _ => None;
     spawn := fun _ => SpawnNotFound;
     cut_off := fun _ _ => None;
     operator_answer := fun _ => None;
     path_resolve := fun s => inr (Demo.demo_resolve s);
     may_create_in := fun _ => true |}.

(** The demo machine with every directory read-only. *)
Definition read_only_world : World :=
  {| os_access_x := os_access_x (Demo.demo_world NotFound None);
     shutil_which := shutil_which (Demo.demo_world NotFound None);
     spawn := spawn (Demo.demo_world NotFound None);
     cut_off := fun _ _ => None;
     operator_answer := fun _ => None;
     path_resolve := fun s => inr (Demo.demo_resolve s);
     may_create_in := fun _ => false |}.

(** The demo machine where [/opt/codex] is a directory (directories pass
    the execute test of [os.access], and running one raises
    [PermissionError]), where [./codex] is an executable of the working
    directory (the search returns a name with a directory part as it is),
    and where the home directory of [~ghost] is unknown. *)
Definition odd_world : World :=
  {| os_access_x := fun p =>
       bool_decide (p = "/opt/codex") || os_access_x (Demo.demo_world NotFound None) p;
     shutil_which := fun n =>
       if bool_decide (n = "./codex") then Some "./codex"
       else shutil_which (Demo.demo_world NotFound None) n;
     spawn := fun cmd =>
       if bool_decide (cmd = ["/opt/codex"; "--version"]) then
         SpawnRaises PermissionError
       else spawn (Demo.demo_world NotFound None) cmd;
     cut_off := fun _ _ => None;
     operator_answer := fun _ => None;
     path_resolve := fun s =>
       if bool_decide (s = "~ghost/sbx") then inl RuntimeError
       else if bool_decide (s = "/etc/passwd/a/b") then
         inr ["b"; "a"; "passwd"; "etc"]
       else inr (Demo.demo_resolve s);
     may_create_in := fun _ => true |}.

(** U+00A0, the no-break space, in UTF-8. *)
Definition nbsp : string :=
  String (ascii_of_nat 194) (String (ascii_of_nat 160) EmptyString).

(** The demo machine with one more executable, [/opt/padded/codex], whose
    self-check exits with status 2 and writes its complaint between
    no-break spaces. *)
Definition padded_world : World :=
  {| os_access_x := fun p =>
       bool_decide (p = "/opt/padded/codex")
       || os_access_x (Demo.demo_world NotFound None) p;
     shutil_which := shutil_which (Demo.demo_world NotFound None);
     spawn := fun cmd =>
       if bool_decide (cmd = ["/opt/padded/codex"; "--version"]) then
         Exits 2 EmptyString (nbsp +:+ "denied" +:+ nbsp +:+ Py.newline)
       else spawn (Demo.demo_world NotFound None) cmd;
     cut_off := fun _ _ => None;
     operator_answer := fun _ => None;
     path_resolve := fun s => inr (Demo.demo_resolve s);
     may_create_in := fun _ => true |}.


(** An instance whose override and configured binary name the same
    executable. *)
Definition twice_named : CodexCLI :=
  CodexCLI_init
    {| bin := Some "/usr/local/bin/tool-x";
       sandbox := None;
       default_mode := "suggest";
       default_timeout := None |}
    (Some "/usr/local/bin/tool-x").

(** A fresh instance without a configured sandbox. *)
Definition no_sandbox : State :=
  Demo.demo_state
    {| bin := None; sandbox := None;
       default_mode := "suggest"; default_timeout := None |}
    (Some "/usr/local/bin/tool-x").

End Cases.

(** * Properties *)

(** ** Examples: the model on concrete inputs *)

Example str_of_int_pos : Py.str_of_int 30 = "30".
Proof. reflexivity. Qed.

Example str_of_int_zero : Py.str_of_int 0 = "0".
Proof. reflexivity. Qed.

Example str_of_int_neg : Py.str_of_int (-5) = "-5".
Proof. reflexivity. Qed.

Example strip_example : Py.strip "  not found " = "not found".
Proof. reflexivity. Qed.

(** [str.strip] removes Unicode whitespace, not only the ASCII one. *)
Example strip_no_break_space :
  Py.strip (Cases.nbsp +:+ "denied" +:+ Cases.nbsp +:+ Py.newline) = "denied".
Proof. reflexivity. Qed.

(** ... and leaves whitespace inside the text alone. *)
Example strip_keeps_inner :
  Py.strip (Py.newline +:+ "a" +:+ Cases.nbsp +:+ "b ") = "a" +:+ Cases.nbsp +:+ "b".
Proof. reflexivity. Qed.

Example shlex_quote_plain : Py.shlex_quote "/usr/bin/codex" = "/usr/bin/codex".
Proof. reflexivity. Qed.

Example shlex_quote_spaces : Py.shlex_quote "fix the bug" = "'fix the bug'".
Proof. reflexivity. Qed.

(** The first scenario of the specification: an override that verifies, a
    sandbox override, mode suggest, pre-approved, the process prints ok. *)
Example scenario_success :
  fst (execute (Demo.demo_world (Completed 0 "ok" EmptyString) None)
         (Some "suggest") None (Some (PStr "/tmp/sbx")) false true None
         (Demo.demo_state Demo.demo_settings (Some "/usr/local/bin/tool-x")))
  = Ok {| command := ["/usr/local/bin/tool-x"; "run"; "--mode"; "suggest";
                      "--sandbox"; "/tmp/sbx"];
          returncode := Some 0; stdout := "ok"; stderr := EmptyString;
          dry_run := false |}.
Proof. vm_compute. reflexivity. Qed.

(** The timeout scenario: five seconds allowed, and the process is cut off
    having written to its output only.  The output is kept as bytes, the
    duration is in the error stream, the message is fixed. *)
Example scenario_timeout_output_only :
  fst (execute (Demo.demo_world (TimedOut (Some "working") None) None)
         None None (Some (PStr "/tmp/sbx")) false true (Some 5) Demo.fresh)
  = Raise (ExecutionError
             {| err_command := ["/usr/local/bin/tool-x"; "run"; "--mode"; "suggest";
                                "--sandbox"; "/tmp/sbx"; "--timeout"; "5"];
                err_returncode := -1;
                err_stdout := Bytes "working";
                err_stderr := Py.newline +:+ "Timed out after 5s";
                err_message := "Codex execution timed out" |}).
Proof. vm_compute. reflexivity. Qed.

(** The same with error output captured: adding the note to bytes raises
    [TypeError]. *)
Example scenario_timeout_with_error_output :
  fst (execute (Demo.demo_world (TimedOut None (Some "slow disk")) None)
         None None (Some (PStr "/tmp/sbx")) false true (Some 5) Demo.fresh)
  = Raise (Uncaught TypeError).
Proof. vm_compute. reflexivity. Qed.

(** A sandbox below a regular file cannot be created. *)
Example scenario_sandbox_below_file :
  fst (execute (Demo.demo_world NotFound None)
         None None (Some (PStr "/etc/passwd/sbx")) false true None
         (Demo.demo_state Demo.demo_settings None))
  = Raise (CodexSandboxError
             "Unable to create sandbox directory '/etc/passwd/sbx': [Errno 20] Not a directory: '/etc/passwd/sbx'").
Proof. vm_compute. reflexivity. Qed.

(** Two levels below a regular file the error is still [ENOTDIR], on the
    path itself, and nothing has been created. *)
Example scenario_sandbox_far_below_file :
  resolve_sandbox Cases.odd_world (Some (PStr "/etc/passwd/a/b"))
    (Demo.demo_state Demo.demo_settings None)
  = (Raise (CodexSandboxError
              "Unable to create sandbox directory '/etc/passwd/a/b': [Errno 20] Not a directory: '/etc/passwd/a/b'"),
     Demo.demo_state Demo.demo_settings None).
Proof. vm_compute. reflexivity. Qed.

(** An unknown user in the sandbox path: the [RuntimeError] of
    [expanduser] is not wrapped. *)
Example scenario_sandbox_unknown_user :
  resolve_sandbox Cases.odd_world (Some (PStr "~ghost/sbx"))
    (Demo.demo_state Demo.demo_settings None)
  = (Raise (Uncaught RuntimeError), Demo.demo_state Demo.demo_settings None).
Proof. vm_compute. reflexivity. Qed.

(** ** The monad and the state *)

Lemma bind_ok {A B} (m : M A) (k : A -> M B) st a st' :
  m st = (Ok a, st') -> bind m k st = k a st'.
Proof. intros H. unfold bind. by rewrite H. Qed.

Lemma bind_raise {A B} (m : M A) (k : A -> M B) st e st' :
  m st = (Raise e, st') -> bind m k st = (Raise e, st').
Proof. intros H. unfold bind. by rewrite H. Qed.

Lemma truthy_Some_inv (o : option string) :
  Py.truthy o = true -> exists c r, o = Some (String c r).
Proof. destruct o as [[|c r]|]; simpl; try discriminate. eauto. Qed.

Lemma or_else_truthy (o : option string) (d : string) :
  Py.truthy o = true -> o = Some (Py.or_else o d).
Proof. intros (c & r & ->)%truthy_Some_inv. reflexivity. Qed.

Lemma isabs_truthy (p : string) : Py.isabs p = true -> Py.truthy (Some p) = true.
Proof. by destruct p. Qed.

(** ** Binary discovery *)

Lemma locate_truthy w c b : locate w c = Some b -> Py.truthy (Some b) = true.
Proof.
  unfold locate.
  destruct (Py.isabs c && os_access_x w c) eqn:E.
  - intros [= <-]. apply andb_true_iff in E as [E _]. by apply isabs_truthy.
  - destruct (shutil_which w c) as [[|a r]|]; intros [= <-]. reflexivity.
Qed.

(** [_verify_binary] always records the self-check it runs. *)
Lemma verify_binary_eq w b st :
  _verify_binary w b st
  = (verify_result w b, with_run_call [b; "--version"] None st).
Proof.
  unfold _verify_binary, verify_result, bind, run_subprocess_untimed.
  cbv beta iota.
  destruct (spawn w _) as [rc out err| |x]; try reflexivity.
  by case_bool_decide.
Qed.

Lemma verify_result_ok w b :
  self_check_ok w b = true -> verify_result w b = Ok b.
Proof.
  unfold self_check_ok, verify_result.
  destruct (spawn w _) as [rc out err| |x]; try discriminate.
  by intros ->.
Qed.

Lemma verify_result_fails w b :
  self_check_caught w b = true ->
  exists msg, verify_result w b = Raise (CodexUnavailableError msg).
Proof.
  unfold self_check_caught, verify_result.
  destruct (spawn w _) as [rc out err| |x]; try discriminate; eauto.
  intros Hrc%bool_decide_eq_true. rewrite bool_decide_eq_false_2 by done. eauto.
Qed.

Lemma verify_result_ok_inv w b b' :
  verify_result w b = Ok b' -> b' = b /\ self_check_ok w b = true.
Proof.
  unfold self_check_ok, verify_result.
  destruct (spawn w _) as [rc out err| |x]; try discriminate.
  case_bool_decide; [|discriminate]. by intros [= <-].
Qed.

Lemma verify_binary_ok w b st :
  self_check_ok w b = true ->
  _verify_binary w b st = (Ok b, with_run_call [b; "--version"] None st).
Proof. intros H. by rewrite verify_binary_eq, verify_result_ok. Qed.

Lemma verify_binary_fails w b st :
  self_check_caught w b = true ->
  exists msg,
    _verify_binary w b st
    = (Raise (CodexUnavailableError msg), with_run_call [b; "--version"] None st).
Proof.
  intros (msg & H)%verify_result_fails. exists msg.
  by rewrite verify_binary_eq, H.
Qed.

(** On a candidate that is found, [_resolve_single_candidate] is the
    self-check of what was found; on one that is not, it returns [None]
    and touches nothing. *)
Lemma resolve_single_located w c b st :
  locate w c = Some b ->
  _resolve_single_candidate w c st
  = bind (_verify_binary w b) (fun b' => ret (Some b')) st.
Proof.
  unfold locate, _resolve_single_candidate.
  destruct (Py.isabs c && os_access_x w c); [by intros [= <-]|].
  destruct (shutil_which w c) as [[|a r]|]; intros [= <-]. reflexivity.
Qed.

Lemma resolve_single_not_located w c st :
  locate w c = None -> _resolve_single_candidate w c st = (Ok None, st).
Proof.
  unfold locate, _resolve_single_candidate.
  destruct (Py.isabs c && os_access_x w c); [discriminate|].
  by destruct (shutil_which w c) as [[|a r]|].
Qed.

Lemma try_candidates_none w cands st :
  first_located w cands = None ->
  try_candidates w cands st
  = (Raise (CodexUnavailableError msg_unable_to_locate), st).
Proof.
  induction cands as [|c rest IH]; simpl; [done|].
  destruct (locate w c) eqn:E; [discriminate|]. intros H.
  unfold bind. rewrite (resolve_single_not_located _ _ _ E). auto.
Qed.

Lemma try_candidates_ok w cands b st :
  first_located w cands = Some b -> self_check_ok w b = true ->
  try_candidates w cands st
  = (Ok b, with_cached b (with_run_call [b; "--version"] None st)).
Proof.
  induction cands as [|c rest IH]; simpl; [done|].
  destruct (locate w c) as [b'|] eqn:E.
  - intros [= ->] Hok. unfold bind at 1.
    rewrite (resolve_single_located _ _ _ _ E). unfold bind at 1.
    rewrite (verify_binary_ok _ _ _ Hok). simpl.
    apply locate_truthy, truthy_Some_inv in E as (a & r & [= ->]).
    reflexivity.
  - intros H Hok. unfold bind at 1.
    rewrite (resolve_single_not_located _ _ _ E). auto.
Qed.

Lemma try_candidates_fails w cands b st :
  first_located w cands = Some b -> self_check_caught w b = true ->
  exists msg,
    try_candidates w cands st
    = (Raise (CodexUnavailableError msg), with_run_call [b; "--version"] None st).
Proof.
  induction cands as [|c rest IH]; simpl; [done|].
  destruct (locate w c) as [b'|] eqn:E.
  - intros [= ->] Hko. unfold bind at 1.
    rewrite (resolve_single_located _ _ _ _ E). unfold bind at 1.
    destruct (verify_binary_fails w b st Hko) as [msg ->]. eauto.
  - intros H Hko. unfold bind at 1.
    rewrite (resolve_single_not_located _ _ _ E). auto.
Qed.

Lemma try_candidates_escapes w cands b x st :
  first_located w cands = Some b -> spawn w [b; "--version"] = SpawnRaises x ->
  try_candidates w cands st
  = (Raise (Uncaught x), with_run_call [b; "--version"] None st).
Proof.
  induction cands as [|c rest IH]; simpl; [done|].
  destruct (locate w c) as [b'|] eqn:E.
  - intros [= ->] Hx. unfold bind at 1.
    rewrite (resolve_single_located _ _ _ _ E).
    pose proof (locate_truthy _ _ _ E) as (a & r & [= ->])%truthy_Some_inv.
    unfold bind. rewrite verify_binary_eq. unfold verify_result. by rewrite Hx.
  - intros H Hx. unfold bind at 1.
    rewrite (resolve_single_not_located _ _ _ E). auto.
Qed.

Lemma resolve_binary_uncached w st :
  Py.truthy (_cached_binary (self st)) = false ->
  resolve_binary w st = try_candidates w (candidates_of (self st)) st.
Proof.
  unfold resolve_binary, bind, get_self. simpl.
  by destruct (_cached_binary (self st)) as [[|c r]|].
Qed.

Lemma resolve_binary_cached w st b :
  _cached_binary (self st) = Some b -> Py.truthy (Some b) = true ->
  resolve_binary w st = (Ok b, st).
Proof.
  unfold resolve_binary, bind, get_self. simpl. intros -> Hb.
  by destruct b.
Qed.

(** Conversely, a successful pass over the candidates returns the first
    candidate that is found, its self-check exited with status zero, and
    the only changes to the state are that self-check and the cache. *)
Lemma try_candidates_ok_inv w cands st b st' :
  try_candidates w cands st = (Ok b, st') ->
  first_located w cands = Some b
  /\ self_check_ok w b = true
  /\ st' = with_cached b (with_run_call [b; "--version"] None st).
Proof.
  induction cands as [|c rest IH]; simpl; [discriminate|].
  destruct (locate w c) as [b'|] eqn:E.
  - unfold bind at 1. rewrite (resolve_single_located _ _ _ _ E).
    pose proof (locate_truthy _ _ _ E) as (a & r & [= ->])%truthy_Some_inv.
    unfold bind. rewrite verify_binary_eq.
    destruct (verify_result w (String a r)) as [b'|e] eqn:V; [|discriminate].
    apply verify_result_ok_inv in V as [-> V]. unfold ret.
    intros [= <- <-]. auto.
  - unfold bind at 1. rewrite (resolve_single_not_located _ _ _ E). auto.
Qed.

Lemma resolve_binary_ok_cache w st b st' :
  resolve_binary w st = (Ok b, st') ->
  _cached_binary (self st') = Some b /\ Py.truthy (Some b) = true.
Proof.
  destruct (Py.truthy (_cached_binary (self st))) eqn:T.
  - apply truthy_Some_inv in T as (c & r & T).
    rewrite (resolve_binary_cached w st _ T eq_refl). by intros [= <- <-].
  - rewrite (resolve_binary_uncached _ _ T).
    intros (L & _ & ->)%try_candidates_ok_inv. split; [done|].
    unfold first_located in L. clear T.
    induction (candidates_of (self st)) as [|c rest IH]; [done|].
    destruct (locate w c) eqn:E; [|by apply IH].
    injection L as ->. by eapply locate_truthy.
Qed.

(** What [resolve_binary] leaves untouched. *)
Lemma resolve_binary_frame w st r st' :
  resolve_binary w st = (r, st') ->
  settings (self st') = settings (self st)
  /\ _binary_override (self st') = _binary_override (self st)
  /\ fs st' = fs st /\ prompts st' = prompts st.
Proof.
  unfold resolve_binary, bind, get_self. simpl.
  assert (G : forall cands st r st',
    try_candidates w cands st = (r, st') ->
    settings (self st') = settings (self st)
    /\ _binary_override (self st') = _binary_override (self st)
    /\ fs st' = fs st /\ prompts st' = prompts st).
  { clear. induction cands as [|c rest IH]; simpl; intros st r st'.
    - by intros [= <- <-].
    - unfold bind at 1. destruct (locate w c) as [b|] eqn:E.
      + rewrite (resolve_single_located _ _ _ _ E).
        pose proof (locate_truthy _ _ _ E) as (a & s & [= ->])%truthy_Some_inv.
        unfold bind. rewrite verify_binary_eq.
        destruct (verify_result w (String a s)) eqn:V;
          [apply verify_result_ok_inv in V as [-> _]|]; simpl;
          by intros [= <- <-].
      + rewrite (resolve_single_not_located _ _ _ E). apply IH. }
  destruct (_cached_binary (self st)) as [[|c s]|]; try apply G.
  by intros [= <- <-].
Qed.

(** C1 (as amended): a candidate that is neither an executable absolute
    path nor on the search path is skipped without any process being run,
    and resolution moves on to the next candidate in priority order.  The
    first candidate that is found decides the outcome, after the one
    self-check that is run: if the self-check exits with status zero the
    path is returned and cached; if it exits non-zero or the file to run is
    not found ([CalledProcessError], [FileNotFoundError]), resolution stops
    there with [CodexUnavailableError]; any other exception of the launch
    (a [PermissionError] for a directory, say) leaves [resolve_binary]
    uncaught.  In none of the three cases is a later candidate tried.  When
    no candidate is found at all, resolution fails with the
    [CodexUnavailableError] that names the knobs, having run nothing. *)
Theorem resolve_binary_first_located_decides (w : World) (st : State) :
  Py.truthy (_cached_binary (self st)) = false ->
  match first_located w (candidates_of (self st)) with
  | None =>
      resolve_binary w st
      = (Raise (CodexUnavailableError msg_unable_to_locate), st)
  | Some b =>
      (self_check_ok w b = true ->
       resolve_binary w st
       = (Ok b, with_cached b (with_run_call [b; "--version"] None st)))
      /\ (self_check_caught w b = true ->
          exists msg,
            resolve_binary w st
            = (Raise (CodexUnavailableError msg),
               with_run_call [b; "--version"] None st))
      /\ (forall x : py_exc,
            spawn w [b; "--version"] = SpawnRaises x ->
            resolve_binary w st
            = (Raise (Uncaught x), with_run_call [b; "--version"] None st))
  end.
Proof.
  intros T. rewrite (resolve_binary_uncached _ _ T).
  destruct (first_located w (candidates_of (self st))) as [b|] eqn:L.
  - split; [|split].
    + intros H. by apply try_candidates_ok.
    + intros H. by apply try_candidates_fails.
    + intros x H. by apply try_candidates_escapes.
  - by apply try_candidates_none.
Qed.

(** The override verifies: it is returned and cached after one self-check.
    The override is a directory: the [PermissionError] of the launch
    escapes, and [codex], which is on the search path and verifies, is never
    tried. *)
Lemma resolve_binary_first_located_decides_witness :
  resolve_binary (Demo.demo_world NotFound None)
    (Demo.demo_state Demo.demo_settings (Some "/usr/local/bin/tool-x"))
  = (Ok "/usr/local/bin/tool-x",
     with_cached "/usr/local/bin/tool-x"
       (with_run_call ["/usr/local/bin/tool-x"; "--version"] None
          (Demo.demo_state Demo.demo_settings (Some "/usr/local/bin/tool-x"))))
  /\ resolve_binary Cases.odd_world
       (Demo.demo_state Demo.demo_settings (Some "/opt/codex"))
     = (Raise (Uncaught PermissionError),
        with_run_call ["/opt/codex"; "--version"] None
          (Demo.demo_state Demo.demo_settings (Some "/opt/codex"))).
Proof.
  split.
  - refine (proj1 (resolve_binary_first_located_decides
                     (Demo.demo_world NotFound None)
                     (Demo.demo_state Demo.demo_settings
                        (Some "/usr/local/bin/tool-x"))
                     eq_refl) _).
    vm_compute. reflexivity.
  - refine (proj2 (proj2 (resolve_binary_first_located_decides
                            Cases.odd_world
                            (Demo.demo_state Demo.demo_settings (Some "/opt/codex"))
                            eq_refl)) PermissionError _).
    vm_compute. reflexivity.
Defined.

(** C1 (as stated) fails: the override [/opt/broken/codex] is executable but
    its self-check exits with status 1, while the default candidate [codex]
    is on the search path and passes verification.  The claim has
    resolution move on and succeed; the code raises. *)
Lemma resolve_binary_failed_self_check_is_fatal :
  let w := Demo.demo_world NotFound None in
  let st := Demo.demo_state Demo.demo_settings (Some "/opt/broken/codex") in
  ~ ((exists c, c ∈ candidates_of (self st) /\ passes_verification w c = true) ->
     exists b st', resolve_binary w st = (Ok b, st')).
Proof.
  intros w st H.
  destruct H as (b & st' & H).
  - exists "codex". split; [|vm_compute; reflexivity].
    vm_compute. apply list_elem_of_further, list_elem_of_here.
  - vm_compute in H. discriminate H.
Qed.




(** ** Sandbox preparation *)

Lemma mkdir_parents_existing_dir w t p :
  is_dir t p = true -> mkdir_parents w t p = (None, t).
Proof.
  intros H. assert (K : os_mkdir w t p = inl (EEXIST, p)).
  { unfold os_mkdir. unfold is_dir in H. by destruct (kind_at t p). }
  destruct p as [|c parent]; [reflexivity|].
  cbn [mkdir_parents]. rewrite K, H. reflexivity.
Qed.

(** [resolve_sandbox], step by step. *)
Lemma resolve_sandbox_eq w o st :
  resolve_sandbox w o st
  = match (if src_truthy o then o else PPath <$> sandbox (settings (self st))) with
    | None => (Raise (CodexSandboxError msg_sandbox_not_configured), st)
    | Some src =>
        match path_resolve w (src_string src) with
        | inl x => (Raise (Uncaught x), st)
        | inr p =>
            match mkdir_parents w (fs st) p with
            | (Some e, t') =>
                (Raise (CodexSandboxError
                          ("Unable to create sandbox directory '" +:+ path_str p
                           +:+ "': " +:+ oserror_str e)),
                 with_fs t' st)
            | (None, t') =>
                if is_dir t' p then (Ok p, with_fs t' st)
                else (Raise (CodexSandboxError
                               ("Sandbox path '" +:+ path_str p
                                +:+ "' is not a directory")),
                      with_fs t' st)
            end
        end
    end.
Proof.
  unfold resolve_sandbox, bind, get_self, get_fs, put_fs, ret, raise.
  cbv beta iota.
  destruct (if src_truthy o then o else PPath <$> sandbox (settings (self st)))
    as [src|]; [|done].
  destruct (path_resolve w (src_string src)) as [x|p]; [done|].
  destruct (mkdir_parents w (fs st) p) as [[e|] t']; [done|].
  by destruct (is_dir t' p).
Qed.

(** What [resolve_sandbox] leaves untouched. *)
Lemma resolve_sandbox_frame w o st r st' :
  resolve_sandbox w o st = (r, st') ->
  self st' = self st /\ run_calls st' = run_calls st /\ prompts st' = prompts st.
Proof.
  rewrite resolve_sandbox_eq.
  destruct (if src_truthy o then o else PPath <$> sandbox (settings (self st)))
    as [src|]; [|by intros [= <- <-]].
  destruct (path_resolve w (src_string src)) as [x|p]; [by intros [= <- <-]|].
  destruct (mkdir_parents w (fs st) p) as [[e|] t']; [by intros [= <- <-]|].
  destruct (is_dir t' _); by intros [= <- <-].
Qed.

(** C9: when [resolve_sandbox] has succeeded for an override, calling it
    again with the same override, on the state the first call left, returns
    the same path without an error and changes nothing, although the
    directory now exists. *)
Theorem resolve_sandbox_idempotent (w : World) (sandbox_override : option path_or_str)
    (st : State) (p : path) (st1 : State) :
  resolve_sandbox w sandbox_override st = (Ok p, st1) ->
  is_dir (fs st1) p = true
  /\ resolve_sandbox w sandbox_override st1 = (Ok p, st1).
Proof.
  rewrite !resolve_sandbox_eq.
  destruct (if src_truthy sandbox_override then sandbox_override
            else PPath <$> sandbox (settings (self st))) as [src|] eqn:S;
    [|discriminate].
  destruct (path_resolve w (src_string src)) as [x|p0] eqn:PR; [discriminate|].
  destruct (mkdir_parents w (fs st) p0) as [[e|] t'] eqn:K; [discriminate|].
  destruct (is_dir t' p0) eqn:D; [|discriminate].
  intros [= <- <-]. cbn [fs self with_fs]. split; [done|].
  rewrite S, PR.
  rewrite (mkdir_parents_existing_dir w t' _ D), D. reflexivity.
Qed.

(** Resolving [/tmp/sbx] a second time, once [/tmp] and [/tmp/sbx] have been
    created. *)
Lemma resolve_sandbox_idempotent_witness :
  let w := Demo.demo_world NotFound None in
  let st := Demo.demo_state Demo.demo_settings None in
  resolve_sandbox w (Some (PStr "/tmp/sbx")) (with_fs (<[ ["sbx"; "tmp"] := Dir ]> (<[ ["tmp"] := Dir ]> (fs st))) st)
  = (Ok ["sbx"; "tmp"], with_fs (<[ ["sbx"; "tmp"] := Dir ]> (<[ ["tmp"] := Dir ]> (fs st))) st).
Proof.
  intros w st.
  refine (proj2 (resolve_sandbox_idempotent w (Some (PStr "/tmp/sbx")) st
                   ["sbx"; "tmp"] _ _)).
  vm_compute. reflexivity.
Defined.

(** ** Command construction *)

(** The step-by-step construction of lines 174-182 builds the vector the
    specification describes. *)
Lemma build_command_spec binary m sp context dry t :
  build_command binary m sp context dry t
  = spec_command binary m (path_str sp) context dry t.
Proof.
  unfold build_command, spec_command.
  destruct context as [[|c r]|], dry, t; reflexivity.
Qed.

Lemma build_command_head binary m sp context dry t :
  head (build_command binary m sp context dry t) = Some binary.
Proof. by rewrite build_command_spec. Qed.

(** ** The stages of [execute] *)

Lemma confirmation_gate_approved w m cmd st :
  confirmation_gate w true m cmd st = (Ok tt, st).
Proof. reflexivity. Qed.

Lemma confirmation_gate_asked w m cmd st :
  confirmation_gate w false m cmd st
  = (match operator_answer w (confirm_prompt m cmd) with
     | Some true => Ok tt
     | _ => Raise (CodexExecutionCancelled msg_cancelled)
     end,
     with_prompt (confirm_prompt m cmd) false st).
Proof.
  unfold confirmation_gate, bind, click_confirm. cbv beta iota.
  by destruct (operator_answer w _) as [[|]|].
Qed.

Lemma run_command_dry w cmd t st :
  run_command w cmd true t st
  = (Ok {| command := cmd; returncode := None; stdout := EmptyString;
           stderr := EmptyString; dry_run := true |}, st).
Proof. reflexivity. Qed.

Lemma run_command_spawn w cmd t st :
  run_command w cmd false t st
  = (match subprocess_run w cmd t with
     | TimedOut out err =>
         if Py.truthy err then Raise (Uncaught TypeError)
         else
           Raise (ExecutionError
                    {| err_command := cmd; err_returncode := -1;
                       err_stdout := bytes_or_empty out;
                       err_stderr := timeout_note t;
                       err_message := msg_timed_out |})
     | NotFound => Raise (CodexUnavailableError msg_disappeared)
     | Escapes x => Raise (Uncaught x)
     | Completed rc out err =>
         if bool_decide (rc = 0) then
           Ok {| command := cmd; returncode := Some rc; stdout := out;
                 stderr := err; dry_run := false |}
         else
           Raise (ExecutionError
                    {| err_command := cmd; err_returncode := rc;
                       err_stdout := out; err_stderr := err;
                       err_message := "Codex execution failed" |})
     end,
     with_run_call cmd t st).
Proof.
  unfold run_command, bind, run_subprocess. cbv beta iota.
  destruct (subprocess_run w cmd t) as [rc out err|out err| |x]; try reflexivity.
  - by repeat case_bool_decide.
  - by destruct err as [[|c r]|].
Qed.

(** The run only returns for a process that exited with status zero. *)
Lemma run_command_spawn_ok w cmd t st r st' :
  run_command w cmd false t st = (Ok r, st') ->
  exists out err,
    subprocess_run w cmd t = Completed 0 out err
    /\ r = {| command := cmd; returncode := Some 0; stdout := out;
              stderr := err; dry_run := false |}
    /\ st' = with_run_call cmd t st.
Proof.
  rewrite run_command_spawn.
  destruct (subprocess_run w cmd t) as [rc out err|out err| |x];
    try discriminate.
  - case_bool_decide; [|discriminate]. intros [= <- <-]. subst rc. eauto.
  - by destruct (Py.truthy err).
Qed.

(** Once both resolutions have succeeded, [execute] is the mode check
    followed by the gate and the run, on the state the resolutions left. *)
Lemma execute_resolved w mode context sbx dry approve timeout st binary st1 sp st2 :
  resolve_binary w st = (Ok binary, st1) ->
  resolve_sandbox w sbx st1 = (Ok sp, st2) ->
  execute w mode context sbx dry approve timeout st
  = if mode_supported (effective_mode_of (settings (self st)) mode) then
      bind (confirmation_gate w approve
              (effective_mode_of (settings (self st)) mode)
              (build_command binary (effective_mode_of (settings (self st)) mode)
                 sp context dry (effective_timeout_of (settings (self st)) timeout)))
           (fun _ =>
              run_command w
                (build_command binary (effective_mode_of (settings (self st)) mode)
                   sp context dry (effective_timeout_of (settings (self st)) timeout))
                dry (effective_timeout_of (settings (self st)) timeout))
           st2
    else
      (Raise (ExecutionError
                {| err_command := [binary]; err_returncode := -1;
                   err_stdout := EmptyString; err_stderr := EmptyString;
                   err_message :=
                     msg_unsupported_mode
                       (effective_mode_of (settings (self st)) mode) |}),
       st2).
Proof.
  intros Hb Hs. unfold execute.
  rewrite (bind_ok _ _ _ _ _ Hb), (bind_ok _ _ _ _ _ Hs).
  unfold bind at 1, get_self. cbv beta iota.
  apply resolve_binary_frame in Hb as (Hset & _).
  apply resolve_sandbox_frame in Hs as (Hself & _).
  rewrite Hself, Hset.
  by destruct (mode_supported _).
Qed.

(** An [execute] that returns went through both resolutions. *)
Lemma execute_ok_resolved w mode context sbx dry approve timeout st r st' :
  execute w mode context sbx dry approve timeout st = (Ok r, st') ->
  exists binary st1 sp st2,
    resolve_binary w st = (Ok binary, st1)
    /\ resolve_sandbox w sbx st1 = (Ok sp, st2).
Proof.
  unfold execute. unfold bind at 1.
  destruct (resolve_binary w st) as [[binary|e] st1]; [|discriminate].
  unfold bind at 1.
  destruct (resolve_sandbox w sbx st1) as [[sp|e] st2] eqn:Hs; [|discriminate].
  intros _. by exists binary, st1, sp, st2.
Qed.

Lemma confirmation_gate_passed w approve m cmd st :
  approve = true \/ operator_answer w (confirm_prompt m cmd) = Some true ->
  confirmation_gate w approve m cmd st = (Ok tt, after_gate approve m cmd st).
Proof.
  destruct approve; [reflexivity|]. intros [|H]; [done|].
  by rewrite confirmation_gate_asked, H.
Qed.

(** The result of a run never has both [dry_run] and a return code. *)
Lemma execute_result_inv w mode context sbx dry approve timeout st r st' :
  execute w mode context sbx dry approve timeout st = (Ok r, st') ->
  dry_run r = dry
  /\ (dry = true -> returncode r = None)
  /\ (dry = false -> returncode r = Some 0).
Proof.
  intros H. pose proof H as (binary & st1 & sp & st2 & Hb & Hs)%execute_ok_resolved.
  rewrite (execute_resolved _ _ _ _ _ _ _ _ _ _ _ _ Hb Hs) in H.
  destruct (mode_supported _); [|discriminate].
  unfold bind in H.
  destruct (confirmation_gate w approve _ _ st2) as [[[]|e] st3]; [|discriminate].
  destruct dry.
  - rewrite run_command_dry in H. injection H as <- <-.
    repeat split; auto; discriminate.
  - apply run_command_spawn_ok in H as (out & err & _ & -> & _).
    repeat split; auto; discriminate.
Qed.

Lemma run_command_frame w cmd dry t st :
  prompts (snd (run_command w cmd dry t st)) = prompts st
  /\ fs (snd (run_command w cmd dry t st)) = fs st
  /\ run_calls (snd (run_command w cmd dry t st))
     = run_calls st ++ (if dry then [] else [(cmd, t)]).
Proof.
  destruct dry.
  - rewrite run_command_dry. simpl. by rewrite app_nil_r.
  - rewrite run_command_spawn. done.
Qed.

Lemma effective_mode_nonempty s mode :
  effective_mode_of s mode <> EmptyString.
Proof.
  unfold effective_mode_of.
  destruct mode as [[|c r]|]; simpl; try discriminate;
    by destruct (default_mode s).
Qed.


(** What the gate followed by the run does, case by case. *)
Lemma gate_then_run_cases w approve m cmd dry t st2 r st' :
  bind (confirmation_gate w approve m cmd)
    (fun _ => run_command w cmd dry t) st2 = (r, st') ->
  (approve = false
   /\ operator_answer w (confirm_prompt m cmd) <> Some true
   /\ r = Raise (CodexExecutionCancelled msg_cancelled)
   /\ st' = with_prompt (confirm_prompt m cmd) false st2)
  \/ ((approve = true \/ operator_answer w (confirm_prompt m cmd) = Some true)
      /\ run_command w cmd dry t (after_gate approve m cmd st2) = (r, st')).
Proof.
  unfold bind. destruct approve.
  - rewrite confirmation_gate_approved. intros H. right. auto.
  - rewrite confirmation_gate_asked.
    destruct (operator_answer w (confirm_prompt m cmd)) as [[|]|] eqn:A.
    + intros H. right. auto.
    + intros [= <- <-]. left. repeat split; done.
    + intros [= <- <-]. left. repeat split; done.
Qed.

Lemma run_command_self w cmd dry t st :
  self (snd (run_command w cmd dry t st)) = self st.
Proof.
  destruct dry; [by rewrite run_command_dry|by rewrite run_command_spawn].
Qed.

Lemma after_gate_frame approve m cmd st :
  self (after_gate approve m cmd st) = self st
  /\ fs (after_gate approve m cmd st) = fs st
  /\ run_calls (after_gate approve m cmd st) = run_calls st.
Proof. by destruct approve. Qed.

Lemma run_command_ok_command w cmd dry t st r st' :
  run_command w cmd dry t st = (Ok r, st') ->
  command r = cmd /\ prompts st' = prompts st.
Proof.
  destruct dry.
  - rewrite run_command_dry. by intros [= <- <-].
  - by intros (out & err & _ & -> & ->)%run_command_spawn_ok.
Qed.


Lemma run_command_error_message w cmd dry t st e st' :
  run_command w cmd dry t st = (Raise (ExecutionError e), st') ->
  err_message e = "Codex execution failed" \/ err_message e = msg_timed_out.
Proof.
  destruct dry; [by rewrite run_command_dry|].
  rewrite run_command_spawn.
  destruct (subprocess_run w cmd t) as [rc out err|out err| |x];
    try discriminate.
  - case_bool_decide; [discriminate|]. intros [= <- _]. by left.
  - destruct (Py.truthy err); [discriminate|]. intros [= <- _]. by right.
Qed.

Lemma effective_mode_of_eq s mode :
  effective_mode_of s mode
  = match mode with
    | Some (String c r) => String c r
    | _ => match default_mode s with
           | String c r => String c r
           | EmptyString => "suggest"
           end
    end.
Proof. by destruct mode as [[|c r]|]. Qed.




(** A successful [resolve_binary] ran at most one process, the self-check
    of the path it returns (none on a cache hit). *)
Lemma resolve_binary_ok_run_calls w st b st1 :
  resolve_binary w st = (Ok b, st1) ->
  run_calls st1 = run_calls st
  \/ run_calls st1 = run_calls st ++ [([b; "--version"], None)].
Proof.
  destruct (Py.truthy (_cached_binary (self st))) eqn:T.
  - apply truthy_Some_inv in T as (c & r & T).
    rewrite (resolve_binary_cached w st _ T eq_refl). intros [= <- <-]. by left.
  - rewrite (resolve_binary_uncached _ _ T).
    intros (_ & _ & ->)%try_candidates_ok_inv. by right.
Qed.

(** Neither resolution raises an execution error. *)
Lemma resolve_binary_raise w st e st1 :
  resolve_binary w st = (Raise e, st1) -> forall x, e <> ExecutionError x.
Proof.
  unfold resolve_binary, bind, get_self. cbv beta iota.
  assert (G : forall cands st,
    try_candidates w cands st = (Raise e, st1) -> forall x, e <> ExecutionError x).
  { clear. induction cands as [|c rest IH]; simpl; intros st.
    - by intros [= <- <-].
    - unfold bind at 1. destruct (locate w c) as [b|] eqn:E.
      + rewrite (resolve_single_located _ _ _ _ E).
        pose proof (locate_truthy _ _ _ E) as (a & s & [= ->])%truthy_Some_inv.
        unfold bind. rewrite verify_binary_eq. unfold verify_result.
        destruct (spawn w _) as [rc out err| |x];
          [case_bool_decide|..]; simpl; by intros [= <- <-].
      + rewrite (resolve_single_not_located _ _ _ E). apply IH. }
  destruct (_cached_binary (self st)) as [[|c s]|]; try apply G.
  discriminate.
Qed.

Lemma resolve_sandbox_raise w o st e st1 :
  resolve_sandbox w o st = (Raise e, st1) -> forall x, e <> ExecutionError x.
Proof.
  rewrite resolve_sandbox_eq.
  destruct (if src_truthy o then o else PPath <$> sandbox (settings (self st)))
    as [src|]; [|by intros [= <- <-]].
  destruct (path_resolve w (src_string src)) as [y|p]; [by intros [= <- <-]|].
  destruct (mkdir_parents w (fs st) p) as [[e'|] t']; [by intros [= <- <-]|].
  destruct (is_dir t' _); by intros [= <- <-].
Qed.

(** C3: when binary and sandbox resolution have succeeded and the effective
    mode (the given mode, else the settings default, else suggest) is
    neither suggest nor auto, [execute] raises the execution error with
    return code -1, empty streams and the message that names the mode.  It
    does so before any process is spawned for the run: the state is the one
    resolution left, so the operator has not been prompted and the only
    process the call may have run is the self-check of binary resolution. *)
Theorem execute_rejects_unsupported_mode (w : World) (mode context : option string)
    (sbx : option path_or_str) (dry approve : bool) (timeout : option Z)
    (st : State) (binary : string) (st1 : State) (sp : path) (st2 : State)
    (m : string) :
  resolve_binary w st = (Ok binary, st1) ->
  resolve_sandbox w sbx st1 = (Ok sp, st2) ->
  m = match mode with
      | Some (String c r) => String c r
      | _ => match default_mode (settings (self st)) with
             | String c r => String c r
             | EmptyString => "suggest"
             end
      end ->
  m <> "suggest" ->
  m <> "auto" ->
  execute w mode context sbx dry approve timeout st
  = (Raise (ExecutionError
              {| err_command := [binary]; err_returncode := -1;
                 err_stdout := EmptyString; err_stderr := EmptyString;
                 err_message := "Unsupported Codex mode '" +:+ m +:+ "'." |}),
     st2)
  /\ prompts st2 = prompts st
  /\ run_calls st2 = run_calls st1
  /\ (run_calls st1 = run_calls st
      \/ run_calls st1 = run_calls st ++ [([binary; "--version"], None)]).
Proof.
  intros Hb Hs Em Hm1 Hm2. rewrite <- effective_mode_of_eq in Em. subst m.
  assert (Hm : mode_supported (effective_mode_of (settings (self st)) mode) = false).
  { apply bool_decide_eq_false. intros [?|[?|[]%elem_of_nil]%elem_of_cons]%elem_of_cons;
      done. }
  rewrite (execute_resolved _ _ _ _ _ _ _ _ _ _ _ _ Hb Hs), Hm.
  split; [reflexivity|].
  pose proof (resolve_binary_frame _ _ _ _ Hb) as (_ & _ & _ & P1).
  pose proof (resolve_sandbox_frame _ _ _ _ _ Hs) as (_ & R2 & P2).
  rewrite P2. repeat split; try done.
  by apply (resolve_binary_ok_run_calls w).
Qed.

(** The mode bogus is rejected. *)
Lemma execute_rejects_unsupported_mode_witness :
  fst (execute (Demo.demo_world NotFound None) (Some "bogus") None
         (Some (PStr "/tmp/sbx")) false true None Demo.fresh)
  = Raise (ExecutionError
             {| err_command := ["/usr/local/bin/tool-x"]; err_returncode := -1;
                err_stdout := EmptyString; err_stderr := EmptyString;
                err_message := "Unsupported Codex mode 'bogus'." |}).
Proof.
  refine (f_equal fst (proj1 (execute_rejects_unsupported_mode
            (Demo.demo_world NotFound None) (Some "bogus") None
            (Some (PStr "/tmp/sbx")) false true None Demo.fresh
            "/usr/local/bin/tool-x"
            (snd (resolve_binary (Demo.demo_world NotFound None) Demo.fresh))
            ["sbx"; "tmp"]
            (snd (resolve_sandbox (Demo.demo_world NotFound None)
                    (Some (PStr "/tmp/sbx"))
                    (snd (resolve_binary (Demo.demo_world NotFound None) Demo.fresh))))
            "bogus" _ _ eq_refl _ _))).
  - vm_compute. reflexivity.
  - vm_compute. reflexivity.
  - discriminate.
  - discriminate.
Defined.

(** C4: when binary and sandbox resolution have succeeded, the mode is
    supported and the gate lets the run through (pre-approved, or the
    operator says yes), a dry run returns at once the result made of the
    built command, no return code, empty streams and [dry_run] set; it runs
    no process and leaves the directory tree alone.  And in every result
    [execute] returns, [dry_run] is set exactly when there is no return
    code. *)
Theorem execute_dry_run (w : World) (mode context : option string)
    (sbx : option path_or_str) (dry approve : bool) (timeout : option Z)
    (st : State) (binary : string) (st1 : State) (sp : path) (st2 : State)
    (m : string) (t : option Z) (cmd : list string) :
  resolve_binary w st = (Ok binary, st1) ->
  resolve_sandbox w sbx st1 = (Ok sp, st2) ->
  m = effective_mode_of (settings (self st)) mode ->
  t = effective_timeout_of (settings (self st)) timeout ->
  cmd = build_command binary m sp context dry t ->
  mode_supported m = true ->
  approve = true \/ operator_answer w (confirm_prompt m cmd) = Some true ->
  (dry = true ->
   execute w mode context sbx dry approve timeout st
   = (Ok {| command := cmd; returncode := None; stdout := EmptyString;
            stderr := EmptyString; dry_run := true |},
      after_gate approve m cmd st2)
   /\ run_calls (after_gate approve m cmd st2) = run_calls st2
   /\ fs (after_gate approve m cmd st2) = fs st2)
  /\ (forall r st',
        execute w mode context sbx dry approve timeout st = (Ok r, st') ->
        dry_run r = true <-> returncode r = None).
Proof.
  intros Hb Hs -> -> -> Hm Hg. split.
  - intros ->.
    rewrite (execute_resolved _ _ _ _ _ _ _ _ _ _ _ _ Hb Hs), Hm.
    unfold bind. rewrite (confirmation_gate_passed _ _ _ _ _ Hg).
    rewrite run_command_dry. by destruct approve.
  - intros r st' (Hd & Ht & Hf)%execute_result_inv. rewrite Hd.
    destruct dry; split; auto.
    rewrite (Hf eq_refl). discriminate.
Qed.

(** The dry-run scenario of the specification. *)
Lemma execute_dry_run_witness :
  execute (Demo.demo_world NotFound (Some true)) (Some "suggest") None
    (Some (PStr "/tmp/sbx")) true true None Demo.fresh
  = (Ok {| command := ["/usr/local/bin/tool-x"; "run"; "--mode"; "suggest";
                       "--sandbox"; "/tmp/sbx"; "--dry-run"];
           returncode := None; stdout := EmptyString; stderr := EmptyString;
           dry_run := true |},
     snd (resolve_sandbox (Demo.demo_world NotFound (Some true))
            (Some (PStr "/tmp/sbx"))
            (snd (resolve_binary (Demo.demo_world NotFound (Some true)) Demo.fresh)))).
Proof.
  refine (proj1 (proj1 (execute_dry_run
            (Demo.demo_world NotFound (Some true)) (Some "suggest") None
            (Some (PStr "/tmp/sbx")) true true None Demo.fresh
            "/usr/local/bin/tool-x"
            (snd (resolve_binary (Demo.demo_world NotFound (Some true)) Demo.fresh))
            ["sbx"; "tmp"] _ "suggest" None _ _ _ eq_refl eq_refl eq_refl eq_refl
            (or_introl eq_refl)) eq_refl)).
  - vm_compute. reflexivity.
  - vm_compute. reflexivity.
Defined.

(** The two wordings of the prompt differ, whatever the command. *)
Lemma confirm_prompt_mode_specific cmd :
  confirm_prompt "auto" cmd <> confirm_prompt "suggest" cmd.
Proof. unfold confirm_prompt. simpl. discriminate. Qed.

(** C5: when binary and sandbox resolution have succeeded and the mode is
    supported, [execute] shows no prompt iff [approve] is set.  Otherwise
    it shows exactly one prompt, with default no: the wording for the mode
    (one for auto, another for suggest), a newline, the shell-quoted
    command, a newline and the question.  Any answer other than yes (no, or
    the bare Enter key that takes the default) raises
    [CodexExecutionCancelled], and then no process has been run and no
    directory created beyond what the resolutions did. *)
Theorem confirmation_gate_spec (w : World) (mode context : option string)
    (sbx : option path_or_str) (dry approve : bool) (timeout : option Z)
    (st : State) (binary : string) (st1 : State) (sp : path) (st2 : State)
    (m : string) (t : option Z) (cmd : list string) :
  resolve_binary w st = (Ok binary, st1) ->
  resolve_sandbox w sbx st1 = (Ok sp, st2) ->
  m = effective_mode_of (settings (self st)) mode ->
  t = effective_timeout_of (settings (self st)) timeout ->
  cmd = build_command binary m sp context dry t ->
  mode_supported m = true ->
  (approve = true
   <-> prompts (snd (execute w mode context sbx dry approve timeout st))
       = prompts st)
  /\ (approve = false ->
      prompts (snd (execute w mode context sbx dry approve timeout st))
      = prompts st
        ++ [((if bool_decide (m = "auto")
              then "Codex will run in AUTO mode. Proceed?"
              else "Execute Codex in SUGGEST mode?")
             +:+ Py.newline +:+ Py.join " " (map Py.shlex_quote cmd)
             +:+ Py.newline +:+ "Continue?",
             false)])
  /\ (forall c, confirm_prompt "auto" c <> confirm_prompt "suggest" c)
  /\ (approve = false ->
      operator_answer w (confirm_prompt m cmd) <> Some true ->
      execute w mode context sbx dry approve timeout st
      = (Raise (CodexExecutionCancelled "Codex execution cancelled by user"),
         with_prompt (confirm_prompt m cmd) false st2)
      /\ run_calls (with_prompt (confirm_prompt m cmd) false st2) = run_calls st2
      /\ fs (with_prompt (confirm_prompt m cmd) false st2) = fs st2).
Proof.
  intros Hb Hs -> -> -> Hm.
  pose proof (resolve_binary_frame _ _ _ _ Hb) as (_ & _ & _ & P1).
  pose proof (resolve_sandbox_frame _ _ _ _ _ Hs) as (_ & _ & P2).
  rewrite (execute_resolved _ _ _ _ _ _ _ _ _ _ _ _ Hb Hs), Hm.
  set (m := effective_mode_of _ _) in *.
  set (t := effective_timeout_of _ _) in *.
  set (cmd := build_command binary m sp context dry t) in *.
  assert (Hno : approve = false ->
            prompts (snd (bind (confirmation_gate w approve m cmd)
                            (fun _ => run_command w cmd dry t) st2))
            = prompts st ++ [(confirm_prompt m cmd, false)]).
  { intros ->. unfold bind. rewrite confirmation_gate_asked.
    destruct (operator_answer w _) as [[|]|]; simpl; try by rewrite P2, P1.
    pose proof (run_command_frame w cmd dry t
                  (with_prompt (confirm_prompt m cmd) false st2)) as (F & _).
    rewrite F. simpl. by rewrite P2, P1. }
  split; [|split; [exact Hno|split; [apply confirm_prompt_mode_specific|]]].
  - split.
    + intros ->. unfold bind. rewrite confirmation_gate_approved.
      pose proof (run_command_frame w cmd dry t st2) as (F & _).
      by rewrite F, P2, P1.
    + destruct approve; [done|]. rewrite (Hno eq_refl). intros E.
      apply (f_equal length) in E. rewrite length_app in E. simpl in E. lia.
  - intros -> Ha. unfold bind. rewrite confirmation_gate_asked.
    by destruct (operator_answer w _) as [[|]|].
Qed.

(** The scenario of the specification: auto mode, not pre-approved, the
    operator declines. *)
Lemma confirmation_gate_spec_witness :
  execute (Demo.demo_world (Completed 0 "ok" EmptyString) (Some false))
    (Some "auto") None (Some (PStr "/tmp/sbx")) false false None Demo.fresh
  = (Raise (CodexExecutionCancelled "Codex execution cancelled by user"),
     with_prompt
       (confirm_prompt "auto"
          ["/usr/local/bin/tool-x"; "run"; "--mode"; "auto"; "--sandbox"; "/tmp/sbx"])
       false
       (snd (resolve_sandbox (Demo.demo_world (Completed 0 "ok" EmptyString) (Some false))
               (Some (PStr "/tmp/sbx"))
               (snd (resolve_binary
                       (Demo.demo_world (Completed 0 "ok" EmptyString) (Some false))
                       Demo.fresh))))).
Proof.
  refine (proj1 (proj2 (proj2 (proj2 (confirmation_gate_spec
            (Demo.demo_world (Completed 0 "ok" EmptyString) (Some false))
            (Some "auto") None (Some (PStr "/tmp/sbx")) false false None Demo.fresh
            "/usr/local/bin/tool-x"
            (snd (resolve_binary
                    (Demo.demo_world (Completed 0 "ok" EmptyString) (Some false))
                    Demo.fresh))
            ["sbx"; "tmp"] _ "auto" None _ _ _ eq_refl eq_refl eq_refl eq_refl)))
            eq_refl _)).
  - vm_compute. reflexivity.
  - vm_compute. reflexivity.
  - discriminate.
Defined.

(** C6 (as amended): when the spawned process exits with a non-zero status,
    [execute] raises the execution error that carries the full command, the
    status of the process and its captured output and error streams.  The
    call site passes no message, so the error carries the generic default
    message of its constructor, Codex execution failed. *)
Theorem execute_nonzero_exit (w : World) (mode context : option string)
    (sbx : option path_or_str) (approve : bool) (timeout : option Z)
    (st : State) (binary : string) (st1 : State) (sp : path) (st2 : State)
    (m : string) (t : option Z) (cmd : list string)
    (rc : Z) (out err : string) :
  resolve_binary w st = (Ok binary, st1) ->
  resolve_sandbox w sbx st1 = (Ok sp, st2) ->
  m = effective_mode_of (settings (self st)) mode ->
  t = effective_timeout_of (settings (self st)) timeout ->
  cmd = build_command binary m sp context false t ->
  mode_supported m = true ->
  approve = true \/ operator_answer w (confirm_prompt m cmd) = Some true ->
  subprocess_run w cmd t = Completed rc out err ->
  rc <> 0 ->
  execute w mode context sbx false approve timeout st
  = (Raise (ExecutionError
              {| err_command := cmd; err_returncode := rc;
                 err_stdout := out; err_stderr := err;
                 err_message := "Codex execution failed" |}),
     with_run_call cmd t (after_gate approve m cmd st2)).
Proof.
  intros Hb Hs -> -> -> Hm Hg Hrun Hrc.
  rewrite (execute_resolved _ _ _ _ _ _ _ _ _ _ _ _ Hb Hs), Hm.
  unfold bind. rewrite (confirmation_gate_passed _ _ _ _ _ Hg).
  rewrite run_command_spawn, Hrun.
  by rewrite bool_decide_eq_false_2.
Qed.

(** A process that exits with status 3. *)
Lemma execute_nonzero_exit_witness :
  execute (Demo.demo_world (Completed 3 "partial" "fatal: no repo") None)
    None None (Some (PStr "/tmp/sbx")) false true None Demo.fresh
  = (Raise (ExecutionError
              {| err_command := ["/usr/local/bin/tool-x"; "run"; "--mode"; "suggest";
                                 "--sandbox"; "/tmp/sbx"];
                 err_returncode := 3;
                 err_stdout := "partial"; err_stderr := "fatal: no repo";
                 err_message := "Codex execution failed" |}),
     with_run_call
       ["/usr/local/bin/tool-x"; "run"; "--mode"; "suggest"; "--sandbox"; "/tmp/sbx"]
       None
       (snd (resolve_sandbox
               (Demo.demo_world (Completed 3 "partial" "fatal: no repo") None)
               (Some (PStr "/tmp/sbx"))
               (snd (resolve_binary
                       (Demo.demo_world (Completed 3 "partial" "fatal: no repo") None)
                       Demo.fresh))))).
Proof.
  refine (execute_nonzero_exit
            (Demo.demo_world (Completed 3 "partial" "fatal: no repo") None)
            None None (Some (PStr "/tmp/sbx")) true None Demo.fresh
            "/usr/local/bin/tool-x"
            (snd (resolve_binary
                    (Demo.demo_world (Completed 3 "partial" "fatal: no repo") None)
                    Demo.fresh))
            ["sbx"; "tmp"] _ "suggest" None _ 3 "partial" "fatal: no repo"
            _ _ eq_refl eq_refl eq_refl eq_refl (or_introl eq_refl) eq_refl _).
  - vm_compute. reflexivity.
  - vm_compute. reflexivity.
  - discriminate.
Defined.

(** C6 (as stated) fails: the process exits with status 3; the error carries
    the command, the status and both streams, but its message is not
    absent: it is the text the constructor makes up. *)
Lemma execute_nonzero_exit_has_message :
  let w := Demo.demo_world (Completed 3 "partial" "fatal: no repo") None in
  let out := execute w None None (Some (PStr "/tmp/sbx")) false true None
               Demo.fresh in
  ~ (exists e, fst out = Raise (ExecutionError e)
               /\ err_command e = ["/usr/local/bin/tool-x"; "run"; "--mode";
                                   "suggest"; "--sandbox"; "/tmp/sbx"]
               /\ err_returncode e = 3
               /\ err_stdout e = "partial"
               /\ err_stderr e = "fatal: no repo"
               /\ err_message e = EmptyString).
Proof.
  intros w out (e & H & _ & _ & _ & _ & M).
  vm_compute in H. injection H as <-. discriminate M.
Qed.

(** C7: what the code does when the spawned process exceeds the effective
    timeout.  The partial streams that [TimeoutExpired] carries are bytes.
    When error output was captured, the code adds its note to it, bytes
    plus text, and [TypeError] leaves [execute] in place of the execution
    error.  Only when no error output was captured does it raise the
    execution error with the full command and return code -1; that error
    holds the captured output as bytes, the fixed message Codex execution
    timed out, and the duration in its error stream. *)
Theorem execute_timeout (w : World) (mode context : option string)
    (sbx : option path_or_str) (approve : bool) (timeout : option Z)
    (st : State) (binary : string) (st1 : State) (sp : path) (st2 : State)
    (m : string) (t : option Z) (cmd : list string)
    (out err : option string) :
  resolve_binary w st = (Ok binary, st1) ->
  resolve_sandbox w sbx st1 = (Ok sp, st2) ->
  m = effective_mode_of (settings (self st)) mode ->
  t = effective_timeout_of (settings (self st)) timeout ->
  cmd = build_command binary m sp context false t ->
  mode_supported m = true ->
  approve = true \/ operator_answer w (confirm_prompt m cmd) = Some true ->
  subprocess_run w cmd t = TimedOut out err ->
  (Py.truthy err = true ->
   execute w mode context sbx false approve timeout st
   = (Raise (Uncaught TypeError),
      with_run_call cmd t (after_gate approve m cmd st2)))
  /\ (Py.truthy err = false ->
      execute w mode context sbx false approve timeout st
      = (Raise (ExecutionError
                  {| err_command := cmd; err_returncode := -1;
                     err_stdout :=
                       match out with
                       | Some (String c r) => Bytes (String c r)
                       | _ => Str EmptyString
                       end;
                     err_stderr :=
                       match t with
                       | Some n =>
                           Py.newline +:+ "Timed out after "
                           +:+ Py.str_of_int n +:+ "s"
                       | None => EmptyString
                       end;
                     err_message := "Codex execution timed out" |}),
         with_run_call cmd t (after_gate approve m cmd st2))).
Proof.
  intros Hb Hs -> -> -> Hm Hg Hrun.
  rewrite (execute_resolved _ _ _ _ _ _ _ _ _ _ _ _ Hb Hs), Hm.
  unfold bind. rewrite (confirmation_gate_passed _ _ _ _ _ Hg).
  rewrite run_command_spawn, Hrun.
  split; intros ->; reflexivity.
Qed.

(** The timeout scenario of the specification, with error output captured
    before the process is killed. *)
Lemma execute_timeout_witness :
  fst (execute (Demo.demo_world (TimedOut (Some "working") (Some "slow disk")) None)
         None None (Some (PStr "/tmp/sbx")) false true (Some 5) Demo.fresh)
  = Raise (Uncaught TypeError).
Proof.
  refine (f_equal fst (proj1 (execute_timeout
            (Demo.demo_world (TimedOut (Some "working") (Some "slow disk")) None)
            None None (Some (PStr "/tmp/sbx")) true (Some 5) Demo.fresh
            "/usr/local/bin/tool-x"
            (snd (resolve_binary
                    (Demo.demo_world (TimedOut (Some "working") (Some "slow disk")) None)
                    Demo.fresh))
            ["sbx"; "tmp"]
            (snd (resolve_sandbox
                    (Demo.demo_world (TimedOut (Some "working") (Some "slow disk")) None)
                    (Some (PStr "/tmp/sbx"))
                    (snd (resolve_binary
                            (Demo.demo_world (TimedOut (Some "working") (Some "slow disk")) None)
                            Demo.fresh))))
            "suggest" (Some 5) _ (Some "working") (Some "slow disk")
            _ _ eq_refl eq_refl eq_refl eq_refl (or_introl eq_refl) _) eq_refl)).
  - vm_compute. reflexivity.
  - vm_compute. reflexivity.
  - vm_compute. reflexivity.
Defined.

Lemma msg_unsupported_mode_empty m :
  msg_unsupported_mode m = msg_unsupported_mode EmptyString -> m = EmptyString.
Proof.
  unfold msg_unsupported_mode. simpl. intros [= H].
  destruct m as [|a [|b r]]; [done|discriminate H|].
  simpl in H. injection H as _ H. by destruct r.
Qed.

(** C10: a mode given as the empty string is treated like no mode at all.
    The effective mode is the settings default, or suggest when that is
    empty too; [execute] behaves exactly as it does without a mode; it
    never raises the execution error that rejects the empty string; and
    when the fallback is a supported mode the call goes on to the gate and
    the run. *)
Theorem execute_empty_mode_falls_back (w : World) (context : option string)
    (sbx : option path_or_str) (dry approve : bool) (timeout : option Z)
    (st : State) :
  effective_mode_of (settings (self st)) (Some EmptyString)
  = (if bool_decide (default_mode (settings (self st)) = EmptyString)
     then "suggest" else default_mode (settings (self st)))
  /\ execute w (Some EmptyString) context sbx dry approve timeout st
     = execute w None context sbx dry approve timeout st
  /\ (forall e st',
        execute w (Some EmptyString) context sbx dry approve timeout st
        = (Raise (ExecutionError e), st') ->
        err_message e <> "Unsupported Codex mode ''.")
  /\ (forall binary st1 sp st2 m t cmd,
        resolve_binary w st = (Ok binary, st1) ->
        resolve_sandbox w sbx st1 = (Ok sp, st2) ->
        m = effective_mode_of (settings (self st)) (Some EmptyString) ->
        t = effective_timeout_of (settings (self st)) timeout ->
        cmd = build_command binary m sp context dry t ->
        mode_supported m = true ->
        execute w (Some EmptyString) context sbx dry approve timeout st
        = bind (confirmation_gate w approve m cmd)
            (fun _ => run_command w cmd dry t) st2).
Proof.
  split; [|split; [reflexivity|split]].
  - unfold effective_mode_of. simpl.
    destruct (default_mode (settings (self st))); by case_bool_decide.
  - intros e st' H Hmsg.
    destruct (resolve_binary w st) as [[binary|e1] st1] eqn:Hb.
    2:{ unfold execute in H. rewrite (bind_raise _ _ _ _ _ Hb) in H.
        injection H as -> _. by eapply resolve_binary_raise. }
    destruct (resolve_sandbox w sbx st1) as [[sp|e2] st2] eqn:Hs.
    2:{ unfold execute in H.
        rewrite (bind_ok _ _ _ _ _ Hb), (bind_raise _ _ _ _ _ Hs) in H.
        injection H as -> _. by eapply resolve_sandbox_raise. }
    rewrite (execute_resolved _ _ _ _ _ _ _ _ _ _ _ _ Hb Hs) in H.
    destruct (mode_supported _).
    + apply gate_then_run_cases in H as [(_ & _ & ? & _)|(_ & H)]; [done|].
      apply run_command_error_message in H as [H|H];
        rewrite H in Hmsg; discriminate Hmsg.
    + injection H as <- _. simpl in Hmsg.
      apply (msg_unsupported_mode_empty
               (effective_mode_of (settings (self st)) (Some EmptyString))) in Hmsg.
      by apply effective_mode_nonempty in Hmsg.
  - intros binary st1 sp st2 m t cmd Hb Hs -> -> -> Hm.
    by rewrite (execute_resolved _ _ _ _ _ _ _ _ _ _ _ _ Hb Hs), Hm.
Qed.

(** With the default settings the empty mode runs in suggest mode. *)
Lemma execute_empty_mode_falls_back_witness :
  fst (execute (Demo.demo_world (Completed 0 "ok" EmptyString) None)
         (Some EmptyString) None (Some (PStr "/tmp/sbx")) false true None Demo.fresh)
  = Ok {| command := ["/usr/local/bin/tool-x"; "run"; "--mode"; "suggest";
                      "--sandbox"; "/tmp/sbx"];
          returncode := Some 0; stdout := "ok"; stderr := EmptyString;
          dry_run := false |}.
Proof.
  rewrite (proj2 (proj2 (proj2 (execute_empty_mode_falls_back
             (Demo.demo_world (Completed 0 "ok" EmptyString) None)
             None (Some (PStr "/tmp/sbx")) false true None Demo.fresh)))
             "/usr/local/bin/tool-x"
             (snd (resolve_binary
                     (Demo.demo_world (Completed 0 "ok" EmptyString) None)
                     Demo.fresh))
             ["sbx"; "tmp"]
             (snd (resolve_sandbox
                     (Demo.demo_world (Completed 0 "ok" EmptyString) None)
                     (Some (PStr "/tmp/sbx"))
                     (snd (resolve_binary
                             (Demo.demo_world (Completed 0 "ok" EmptyString) None)
                             Demo.fresh))))
             "suggest" None
             ["/usr/local/bin/tool-x"; "run"; "--mode"; "suggest"; "--sandbox"; "/tmp/sbx"]).
  - vm_compute. reflexivity.
  - vm_compute. reflexivity.
  - vm_compute. reflexivity.
  - reflexivity.
  - reflexivity.
  - reflexivity.
  - reflexivity.
Defined.

(** * Further properties of the module *)

(** ** The candidate list (lines 73-79) *)

(** The step the candidate list is built with: append a name unless it is
    already there. *)
Lemma add_if_new_NoDup (x : string) (l : list string) :
  NoDup l -> NoDup (if bool_decide (x ∈ l) then l else l ++ [x]).
Proof.
  intros H. case_bool_decide as Hx; [done|].
  apply NoDup_app. split; [done|]. split; [|apply NoDup_singleton].
  intros y Hy ->%list_elem_of_singleton. by apply Hx.
Qed.

Lemma add_if_new_elem (x : string) (l : list string) :
  x ∈ (if bool_decide (x ∈ l) then l else l ++ [x]).
Proof.
  case_bool_decide; [done|]. apply elem_of_app. right. apply list_elem_of_here.
Qed.

Lemma add_if_new_mono (x y : string) (l : list string) :
  y ∈ l -> y ∈ (if bool_decide (x ∈ l) then l else l ++ [x]).
Proof. intros H. case_bool_decide; [done|]. apply elem_of_app. by left. Qed.

Lemma add_if_new_inv (x y : string) (l : list string) :
  y ∈ (if bool_decide (x ∈ l) then l else l ++ [x]) -> y ∈ l \/ y = x.
Proof.
  case_bool_decide; [by left|]. intros [Hy|Hy]%elem_of_app; [by left|].
  right. by apply list_elem_of_singleton in Hy.
Qed.

(** X1: the candidate list has no duplicates, keeps the priority order
    override, configured binary, default name, contains every one of
    these that is set and non-empty, always contains the default name
    [codex], and contains nothing else (in particular no empty name). *)
Theorem candidates_of_wellformed (cli : CodexCLI) :
  NoDup (candidates_of cli)
  /\ candidates_of cli
     `sublist_of` (option_list (_binary_override cli)
                   ++ option_list (bin (settings cli)) ++ ["codex"])
  /\ (Py.truthy (_binary_override cli) = true ->
      head (candidates_of cli) = _binary_override cli)
  /\ (forall c, bin (settings cli) = Some c -> c <> EmptyString ->
                c ∈ candidates_of cli)
  /\ "codex" ∈ candidates_of cli
  /\ (forall c, c ∈ candidates_of cli -> c <> EmptyString).
Proof.
  unfold candidates_of.
  destruct (_binary_override cli) as [[|a r]|], (bin (settings cli)) as [[|a' r']|];
    cbn [app option_list Py.truthy].
  all: split; [repeat apply add_if_new_NoDup;
               first [apply NoDup_nil_2 | apply NoDup_singleton]|].
  all: split; [repeat case_bool_decide; simpl;
               repeat first [apply sublist_nil_l | apply sublist_skip
                            | apply sublist_cons]|].
  all: split; [try discriminate; intros _; by repeat case_bool_decide|].
  all: split; [intros c [= <-] Hc; try done;
               apply add_if_new_mono, add_if_new_elem|].
  all: split; [apply add_if_new_elem|].
  all: intros c Hc;
       repeat match type of Hc with
              | _ ∈ (if bool_decide _ then _ else _) =>
                  apply add_if_new_inv in Hc as [Hc| ->]; [|discriminate]
              end;
       try (by apply elem_of_nil in Hc);
       apply list_elem_of_singleton in Hc as ->; discriminate.
Qed.

(** An override that is also the configured binary is listed once, first. *)
Lemma candidates_of_wellformed_witness :
  head (candidates_of Cases.twice_named) = Some "/usr/local/bin/tool-x".
Proof.
  exact (proj1 (proj2 (proj2 (candidates_of_wellformed Cases.twice_named)))
           eq_refl).
Defined.

(** ** Binary discovery, in full (lines 67-121) *)

(** The loop over the candidates is decided by the first candidate that is
    found and by the self-check of what was found. *)
Lemma try_candidates_cases w cands st :
  try_candidates w cands st
  = match first_located w cands with
    | None => (Raise (CodexUnavailableError msg_unable_to_locate), st)
    | Some b =>
        match verify_result w b with
        | Ok _ => (Ok b, with_cached b (with_run_call [b; "--version"] None st))
        | Raise e => (Raise e, with_run_call [b; "--version"] None st)
        end
    end.
Proof.
  induction cands as [|c rest IH]; simpl; [done|].
  unfold bind at 1. destruct (locate w c) as [b|] eqn:E.
  - rewrite (resolve_single_located _ _ _ _ E).
    pose proof (locate_truthy _ _ _ E) as (a & r & [= ->])%truthy_Some_inv.
    unfold bind. rewrite verify_binary_eq.
    destruct (verify_result w (String a r)) as [b'|e] eqn:V; [|done].
    by apply verify_result_ok_inv in V as [-> _].
  - by rewrite (resolve_single_not_located _ _ _ E).
Qed.

Lemma verify_result_raise w b e :
  verify_result w b = Raise e ->
  (exists msg, e = CodexUnavailableError msg)
  \/ (exists x, spawn w [b; "--version"] = SpawnRaises x /\ e = Uncaught x).
Proof.
  unfold verify_result.
  destruct (spawn w _) as [rc out err| |x];
    [case_bool_decide|..]; intros [= <-]; eauto.
Qed.

Lemma first_located_split w cands b :
  first_located w cands = Some b ->
  exists pre c post,
    cands = pre ++ c :: post
    /\ Forall (fun x => locate w x = None) pre
    /\ locate w c = Some b.
Proof.
  induction cands as [|c rest IH]; simpl; [discriminate|].
  destruct (locate w c) as [b'|] eqn:E.
  - intros [= ->]. by exists [], c, rest.
  - intros (pre & c' & post & -> & Hpre & Hc)%IH.
    exists (c :: pre), c', post. repeat split; [|done]. by constructor.
Qed.

(** X2: on an instance without a cached binary, a path that
    [resolve_binary] returns was found for a candidate of the list, every
    candidate before that one was found nowhere, and the self-check of the
    path has just exited with status zero: it is the one process the call
    ran, and the path is now cached. *)
Theorem resolve_binary_sound (w : World) (st : State) (b : string) (st' : State) :
  Py.truthy (_cached_binary (self st)) = false ->
  resolve_binary w st = (Ok b, st') ->
  (exists pre c post,
     candidates_of (self st) = pre ++ c :: post
     /\ Forall (fun x => locate w x = None) pre
     /\ locate w c = Some b)
  /\ self_check_ok w b = true
  /\ st' = with_cached b (with_run_call [b; "--version"] None st).
Proof.
  intros T H. rewrite (resolve_binary_uncached _ _ T) in H.
  apply try_candidates_ok_inv in H as (L & V & ->).
  split; [by apply first_located_split|done].
Qed.

(** An instance whose configured binary is not installed falls through to
    the default name. *)
Lemma resolve_binary_sound_witness :
  exists pre c post,
    candidates_of
      (self (Demo.demo_state
               {| bin := Some "codex-nightly"; sandbox := None;
                  default_mode := "suggest"; default_timeout := None |} None))
    = pre ++ c :: post
    /\ Forall (fun x => locate (Demo.demo_world NotFound None) x = None) pre
    /\ locate (Demo.demo_world NotFound None) c = Some "/usr/bin/codex".
Proof.
  refine (proj1 (resolve_binary_sound (Demo.demo_world NotFound None)
            (Demo.demo_state
               {| bin := Some "codex-nightly"; sandbox := None;
                  default_mode := "suggest"; default_timeout := None |} None)
            "/usr/bin/codex" _ eq_refl _)).
  vm_compute. reflexivity.
Defined.

(** X3: a failed [resolve_binary] caches nothing.  The instance, the
    directory tree and the prompts are as before and the cache is still
    empty, so the next call searches again.  What is raised is
    [CodexUnavailableError], or else the exception with which the
    self-check of the first candidate found failed to run and which the
    code does not catch (such as [PermissionError]). *)
Theorem resolve_binary_failure_not_cached (w : World) (st : State) (e : exn)
    (st' : State) :
  resolve_binary w st = (Raise e, st') ->
  self st' = self st
  /\ Py.truthy (_cached_binary (self st')) = false
  /\ fs st' = fs st
  /\ prompts st' = prompts st
  /\ ((exists msg, e = CodexUnavailableError msg)
      \/ (exists b x,
            first_located w (candidates_of (self st)) = Some b
            /\ spawn w [b; "--version"] = SpawnRaises x
            /\ e = Uncaught x)).
Proof.
  destruct (Py.truthy (_cached_binary (self st))) eqn:T.
  - apply truthy_Some_inv in T as (c & r & T).
    by rewrite (resolve_binary_cached w st _ T eq_refl).
  - rewrite (resolve_binary_uncached _ _ T), try_candidates_cases.
    destruct (first_located w _) as [b|] eqn:L.
    + destruct (verify_result w b) as [b'|e'] eqn:V; [discriminate|].
      intros [= <- <-]. repeat split; try done.
      apply verify_result_raise in V as [?|(x & ? & ->)]; [by left|].
      right. by exists b, x.
    + intros [= <- <-]. repeat split; eauto.
Qed.

(** An override that is a directory: [PermissionError] escapes and nothing
    is cached. *)
Lemma resolve_binary_failure_not_cached_witness :
  let st := Demo.demo_state Demo.demo_settings (Some "/opt/codex") in
  self (snd (resolve_binary Cases.odd_world st)) = self st
  /\ Py.truthy (_cached_binary (self (snd (resolve_binary Cases.odd_world st))))
     = false
  /\ fs (snd (resolve_binary Cases.odd_world st)) = fs st
  /\ prompts (snd (resolve_binary Cases.odd_world st)) = prompts st
  /\ ((exists msg, Uncaught PermissionError = CodexUnavailableError msg)
      \/ (exists b x,
            first_located Cases.odd_world (candidates_of (self st)) = Some b
            /\ spawn Cases.odd_world [b; "--version"] = SpawnRaises x
            /\ Uncaught PermissionError = Uncaught x)).
Proof.
  intros st.
  apply (resolve_binary_failure_not_cached Cases.odd_world st
           (Uncaught PermissionError)).
  vm_compute. reflexivity.
Defined.

(** X4: whatever its outcome, one call of [resolve_binary] runs at most one
    process: the self-check, without a timeout, of the path found for the
    first candidate that is found at all.  Candidates after that one are
    never probed. *)
Theorem resolve_binary_runs_one_self_check (w : World) (st : State)
    (r : res string) (st' : State) :
  resolve_binary w st = (r, st') ->
  run_calls st' = run_calls st
  \/ (exists b,
        first_located w (candidates_of (self st)) = Some b
        /\ run_calls st' = run_calls st ++ [([b; "--version"], None)]).
Proof.
  destruct (Py.truthy (_cached_binary (self st))) eqn:T.
  - apply truthy_Some_inv in T as (c & s & T).
    rewrite (resolve_binary_cached w st _ T eq_refl). intros [= <- <-]. by left.
  - rewrite (resolve_binary_uncached _ _ T), try_candidates_cases.
    destruct (first_located w _) as [b|]; [|intros [= <- <-]; by left].
    destruct (verify_result w b); intros [= <- <-]; right; by exists b.
Qed.

(** The override whose self-check fails: that self-check is all that ran. *)
Lemma resolve_binary_runs_one_self_check_witness :
  let w := Demo.demo_world NotFound None in
  let st := Demo.demo_state Demo.demo_settings (Some "/opt/broken/codex") in
  run_calls (snd (resolve_binary w st)) = run_calls st
  \/ (exists b,
        first_located w (candidates_of (self st)) = Some b
        /\ run_calls (snd (resolve_binary w st))
           = run_calls st ++ [([b; "--version"], None)]).
Proof.
  intros w st.
  apply (resolve_binary_runs_one_self_check w st (fst (resolve_binary w st))).
  vm_compute. reflexivity.
Defined.

(** ** Sandbox preparation, in full (lines 126-144) *)

Lemma os_mkdir_inr w t p t' :
  os_mkdir w t p = inr t' ->
  t' = <[p := Dir]> t /\ t !! p = None /\ p <> [] /\ is_dir t (tail p) = true.
Proof.
  unfold os_mkdir, is_dir. destruct p as [|c parent]; [discriminate|].
  cbn [kind_at tail]. destruct (t !! (c :: parent)) eqn:E; [discriminate|].
  destruct (has_file_above t parent); [discriminate|].
  destruct (kind_at t parent) as [[|]|]; try discriminate.
  destruct (may_create_in w parent); [|discriminate].
  by intros [= <-].
Qed.




(** [mkdir] only adds directories, and only at the path or above it:
    whatever was in the tree stays as it was. *)
Lemma mkdir_parents_grows w p :
  forall t e t',
    mkdir_parents w t p = (e, t') ->
    forall q, t' !! q = t !! q
              \/ (t !! q = None /\ t' !! q = Some Dir /\ q `suffix_of` p).
Proof.
  assert (Hins : forall (t : gmap path node) p0 q,
            t !! p0 = None ->
            <[p0 := Dir]> t !! q = t !! q
            \/ (t !! q = None /\ <[p0 := Dir]> t !! q = Some Dir /\ q = p0)).
  { intros t p0 q Hp0. destruct (decide (p0 = q)) as [<-|Hne].
    - right. by rewrite lookup_insert_eq.
    - left. by rewrite lookup_insert_ne. }
  induction p as [|c parent IH]; intros t e t'.
  - intros [= <- <-] q. by left.
  - cbn [mkdir_parents].
    destruct (os_mkdir w t (c :: parent)) as [[e0 q0]|t0] eqn:K.
    + assert (Hsame : (if is_dir t (c :: parent) then (None, t)
                       else (Some (e0, q0), t)) = (e, t') ->
                      forall q, t' !! q = t !! q
                        \/ (t !! q = None /\ t' !! q = Some Dir
                            /\ q `suffix_of` c :: parent)).
      { destruct (is_dir t (c :: parent)); intros [= <- <-] q; by left. }
      destruct e0; try exact Hsame. clear Hsame.
      destruct (mkdir_parents w t parent) as [[e1|] t1] eqn:R.
      * intros [= <- <-] q. destruct (IH _ _ _ R q) as [?|(? & ? & ?)]; [by left|].
        right. repeat split; try done. by apply suffix_cons_r.
      * assert (Hup : forall q, t1 !! q = t !! q
                        \/ (t !! q = None /\ t1 !! q = Some Dir
                            /\ q `suffix_of` c :: parent)).
        { intros q. destruct (IH _ _ _ R q) as [?|(? & ? & ?)]; [by left|].
          right. repeat split; try done. by apply suffix_cons_r. }
        destruct (os_mkdir w t1 (c :: parent)) as [[e2 q2]|t2] eqn:K2.
        -- destruct e2; try (intros [= <- <-]; exact Hup);
             destruct (is_dir t1 (c :: parent)); intros [= <- <-]; exact Hup.
        -- intros [= <- <-] q.
           apply os_mkdir_inr in K2 as (-> & Hnone & _ & _).
           destruct (Hins t1 _ q Hnone) as [Hq|(Hq1 & Hq2 & ->)].
           ++ rewrite Hq. apply Hup.
           ++ right. destruct (Hup (c :: parent)) as [Hu|(Hu & _)].
              ** rewrite Hnone in Hu. done.
              ** done.
    + intros [= <- <-] q. apply os_mkdir_inr in K as (-> & Hnone & _ & _).
      destruct (Hins t _ q Hnone) as [?|(? & ? & ->)]; [by left|by right].
Qed.





(** X6: whatever its outcome, [resolve_sandbox] runs no process, shows no
    prompt and leaves the instance alone; in the directory tree it deletes
    nothing and replaces nothing: every path either holds what it held
    before or was absent and is now a directory, and after a success such a
    new directory is the sandbox or lies above it. *)
Theorem resolve_sandbox_only_adds_directories (w : World)
    (sandbox_override : option path_or_str) (st : State)
    (r : res path) (st' : State) :
  resolve_sandbox w sandbox_override st = (r, st') ->
  self st' = self st
  /\ run_calls st' = run_calls st
  /\ prompts st' = prompts st
  /\ (forall q,
        fs st' !! q = fs st !! q
        \/ (fs st !! q = None /\ fs st' !! q = Some Dir
            /\ forall p, r = Ok p -> q `suffix_of` p)).
Proof.
  intros H. pose proof (resolve_sandbox_frame _ _ _ _ _ H) as (? & ? & ?).
  repeat split; try done. revert H.
  rewrite resolve_sandbox_eq.
  destruct (if src_truthy sandbox_override then sandbox_override
            else PPath <$> sandbox (settings (self st))) as [src|];
    [|intros [= <- <-] q; by left].
  destruct (path_resolve w (src_string src)) as [x|p0];
    [intros [= <- <-] q; by left|].
  destruct (mkdir_parents w (fs st) p0) as [e t'] eqn:R.
  pose proof (mkdir_parents_grows _ _ _ _ _ R) as G.
  destruct e as [e|]; [|destruct (is_dir t' _)]; intros [= <- <-] q;
    cbn [fs with_fs];
    (destruct (G q) as [?|(? & ? & ?)]; [by left|right]);
    repeat split; try done; by intros p' [= <-].
Qed.

(** Creating [/tmp/sbx] leaves [/etc] and [/etc/passwd] as they were. *)
Lemma resolve_sandbox_only_adds_directories_witness :
  let w := Demo.demo_world NotFound None in
  let out := resolve_sandbox w (Some (PStr "/tmp/sbx")) Demo.fresh in
  self (snd out) = self Demo.fresh
  /\ run_calls (snd out) = run_calls Demo.fresh
  /\ prompts (snd out) = prompts Demo.fresh
  /\ (forall q,
        fs (snd out) !! q = fs Demo.fresh !! q
        \/ (fs Demo.fresh !! q = None /\ fs (snd out) !! q = Some Dir
            /\ forall p, fst out = Ok p -> q `suffix_of` p)).
Proof.
  intros w out.
  apply (resolve_sandbox_only_adds_directories w (Some (PStr "/tmp/sbx"))
           Demo.fresh (fst out) (snd out)).
  vm_compute. reflexivity.
Defined.



(** X8: a sandbox override that is [None] or the empty string is ignored.
    The call then behaves as if the settings default had been passed as a
    [Path], and without a settings default it raises the error that names
    the knobs and touches nothing. *)
Theorem resolve_sandbox_falsy_override (w : World)
    (sandbox_override : option path_or_str) (st : State) :
  sandbox_override = None \/ sandbox_override = Some (PStr EmptyString) ->
  resolve_sandbox w sandbox_override st
  = match sandbox (settings (self st)) with
    | Some d => resolve_sandbox w (Some (PPath d)) st
    | None => (Raise (CodexSandboxError msg_sandbox_not_configured), st)
    end.
Proof.
  intros [-> | ->]; rewrite resolve_sandbox_eq; cbn [src_truthy Py.truthy];
    destruct (sandbox (settings (self st))) as [d|]; [|done|..|done];
    by rewrite resolve_sandbox_eq.
Qed.

(** With the empty override the default sandbox of the settings is
    prepared. *)
Lemma resolve_sandbox_falsy_override_witness :
  fst (resolve_sandbox (Demo.demo_world NotFound None) (Some (PStr EmptyString))
         Demo.fresh)
  = Ok ["sandbox"; "codex"; "amplifier"; "var"].
Proof.
  rewrite (resolve_sandbox_falsy_override (Demo.demo_world NotFound None)
             (Some (PStr EmptyString)) Demo.fresh (or_intror eq_refl)).
  vm_compute. reflexivity.
Defined.



(** ** [execute], in full (lines 149-233) *)

(** X10: when the binary cannot be resolved, [execute] raises what
    [resolve_binary] raised and stops there: no sandbox directory has been
    created and the operator has not been asked.  What is raised is
    [CodexUnavailableError], or the exception of the self-check's launch
    that [_verify_binary] does not catch (a [PermissionError], say). *)
Theorem execute_stops_at_binary_failure (w : World) (mode context : option string)
    (sbx : option path_or_str) (dry approve : bool) (timeout : option Z)
    (st : State) (e : exn) (st1 : State) :
  resolve_binary w st = (Raise e, st1) ->
  execute w mode context sbx dry approve timeout st = (Raise e, st1)
  /\ fs st1 = fs st
  /\ prompts st1 = prompts st
  /\ ((exists msg, e = CodexUnavailableError msg)
      \/ (exists b x,
            first_located w (candidates_of (self st)) = Some b
            /\ spawn w [b; "--version"] = SpawnRaises x
            /\ e = Uncaught x)).
Proof.
  intros H. split.
  - unfold execute. by rewrite (bind_raise _ _ _ _ _ H).
  - pose proof (resolve_binary_frame _ _ _ _ H) as (_ & _ & ? & ?).
    destruct (Py.truthy (_cached_binary (self st))) eqn:T.
    + apply truthy_Some_inv in T as (c & r & T).
      by rewrite (resolve_binary_cached w st _ T eq_refl) in H.
    + rewrite (resolve_binary_uncached _ _ T), try_candidates_cases in H.
      repeat split; try done.
      destruct (first_located w _) as [b|] eqn:L.
      * destruct (verify_result w b) as [b'|e'] eqn:V; [discriminate|].
        injection H as <- _.
        apply verify_result_raise in V as [?|(x & ? & ->)]; [by left|].
        right. by exists b, x.
      * injection H as <- _. eauto.
Qed.

(** An override that names a directory: the [PermissionError] of the
    self-check leaves [execute] as it is, after that one launch. *)
Lemma execute_stops_at_binary_failure_witness :
  let st := Demo.demo_state Demo.demo_settings (Some "/opt/codex") in
  execute Cases.odd_world None None (Some (PStr "/tmp/sbx")) false true None st
  = (Raise (Uncaught PermissionError),
     with_run_call ["/opt/codex"; "--version"] None st).
Proof.
  intros st.
  refine (proj1 (execute_stops_at_binary_failure Cases.odd_world None None
            (Some (PStr "/tmp/sbx")) false true None st
            (Uncaught PermissionError)
            (with_run_call ["/opt/codex"; "--version"] None st) _)).
  vm_compute. reflexivity.
Defined.

(** X11: when the sandbox cannot be prepared, [execute] raises what
    [resolve_sandbox] raised: the operator has not been asked and nothing
    but the self-check of binary resolution has run.  The binary that was
    resolved stays cached on the instance.  What is raised is
    [CodexSandboxError], or the exception of [expanduser]/[resolve] at
    line 135, which sits outside the [try]. *)
Theorem execute_stops_at_sandbox_failure (w : World) (mode context : option string)
    (sbx : option path_or_str) (dry approve : bool) (timeout : option Z)
    (st : State) (binary : string) (st1 : State) (e : exn) (st2 : State) :
  resolve_binary w st = (Ok binary, st1) ->
  resolve_sandbox w sbx st1 = (Raise e, st2) ->
  execute w mode context sbx dry approve timeout st = (Raise e, st2)
  /\ prompts st2 = prompts st
  /\ run_calls st2 = run_calls st1
  /\ _cached_binary (self st2) = Some binary
  /\ ((exists msg, e = CodexSandboxError msg)
      \/ (exists src x,
            (if src_truthy sbx then sbx
             else PPath <$> sandbox (settings (self st1))) = Some src
            /\ path_resolve w (src_string src) = inl x
            /\ e = Uncaught x)).
Proof.
  intros Hb Hs. split.
  - unfold execute.
    by rewrite (bind_ok _ _ _ _ _ Hb), (bind_raise _ _ _ _ _ Hs).
  - pose proof (resolve_binary_frame _ _ _ _ Hb) as (_ & _ & _ & P1).
    pose proof (resolve_sandbox_frame _ _ _ _ _ Hs) as (S2 & R2 & P2).
    pose proof (resolve_binary_ok_cache _ _ _ _ Hb) as [C _].
    rewrite S2, P2. repeat split; try done.
    revert Hs. rewrite resolve_sandbox_eq.
    destruct (if src_truthy sbx then sbx
              else PPath <$> sandbox (settings (self st1))) as [src|];
      [|intros [= <- _]; eauto].
    destruct (path_resolve w (src_string src)) as [x|p] eqn:PR.
    { intros [= <- _]. right. by exists src, x. }
    destruct (mkdir_parents w (fs st1) p) as [[err|] t'];
      [|destruct (is_dir t' p)]; intros [= <- _]; eauto.
Qed.

(** On a read-only machine the sandbox cannot be created. *)
Lemma execute_stops_at_sandbox_failure_witness :
  fst (execute Cases.read_only_world None None (Some (PStr "/tmp/sbx"))
         false true None Demo.fresh)
  = Raise (CodexSandboxError
             ("Unable to create sandbox directory '/tmp/sbx'"
              +:+ ": [Errno 13] Permission denied: '/tmp'")).
Proof.
  refine (f_equal fst (proj1 (execute_stops_at_sandbox_failure
            Cases.read_only_world None None (Some (PStr "/tmp/sbx"))
            false true None Demo.fresh "/usr/local/bin/tool-x"
            (snd (resolve_binary Cases.read_only_world Demo.fresh))
            _
            (snd (resolve_sandbox Cases.read_only_world (Some (PStr "/tmp/sbx"))
                    (snd (resolve_binary Cases.read_only_world Demo.fresh))))
            _ _))).
  - vm_compute. reflexivity.
  - vm_compute. reflexivity.
Defined.

(** X12: when the spawned process exits with status zero, [execute] returns
    the result with the command that was run, return code 0, the captured
    streams and [dry_run] unset; the command was run once, with the
    effective timeout. *)
Theorem execute_zero_exit (w : World) (mode context : option string)
    (sbx : option path_or_str) (approve : bool) (timeout : option Z)
    (st : State) (binary : string) (st1 : State) (sp : path) (st2 : State)
    (m : string) (t : option Z) (cmd : list string) (out err : string) :
  resolve_binary w st = (Ok binary, st1) ->
  resolve_sandbox w sbx st1 = (Ok sp, st2) ->
  m = effective_mode_of (settings (self st)) mode ->
  t = effective_timeout_of (settings (self st)) timeout ->
  cmd = build_command binary m sp context false t ->
  mode_supported m = true ->
  approve = true \/ operator_answer w (confirm_prompt m cmd) = Some true ->
  subprocess_run w cmd t = Completed 0 out err ->
  execute w mode context sbx false approve timeout st
  = (Ok {| command := cmd; returncode := Some 0; stdout := out; stderr := err;
           dry_run := false |},
     with_run_call cmd t (after_gate approve m cmd st2)).
Proof.
  intros Hb Hs -> -> -> Hm Hg Hrun.
  rewrite (execute_resolved _ _ _ _ _ _ _ _ _ _ _ _ Hb Hs), Hm.
  unfold bind. rewrite (confirmation_gate_passed _ _ _ _ _ Hg).
  by rewrite run_command_spawn, Hrun.
Qed.

(** The operator says yes to a run in auto mode. *)
Lemma execute_zero_exit_witness :
  fst (execute (Demo.demo_world (Completed 0 "done" "warn: slow") (Some true))
         (Some "auto") None (Some (PStr "/tmp/sbx")) false false None Demo.fresh)
  = Ok {| command := ["/usr/local/bin/tool-x"; "run"; "--mode"; "auto";
                      "--sandbox"; "/tmp/sbx"];
          returncode := Some 0; stdout := "done"; stderr := "warn: slow";
          dry_run := false |}.
Proof.
  refine (f_equal fst (execute_zero_exit
            (Demo.demo_world (Completed 0 "done" "warn: slow") (Some true))
            (Some "auto") None (Some (PStr "/tmp/sbx")) false None Demo.fresh
            "/usr/local/bin/tool-x"
            (snd (resolve_binary
                    (Demo.demo_world (Completed 0 "done" "warn: slow") (Some true))
                    Demo.fresh))
            ["sbx"; "tmp"]
            (snd (resolve_sandbox
                    (Demo.demo_world (Completed 0 "done" "warn: slow") (Some true))
                    (Some (PStr "/tmp/sbx"))
                    (snd (resolve_binary
                            (Demo.demo_world (Completed 0 "done" "warn: slow")
                               (Some true))
                            Demo.fresh))))
            "auto" None _ "done" "warn: slow"
            _ _ eq_refl eq_refl eq_refl eq_refl (or_intror eq_refl) eq_refl)).
  - vm_compute. reflexivity.
  - vm_compute. reflexivity.
Defined.

(** X13: when the run command fails to launch although the binary had been
    verified, [execute] raises [CodexUnavailableError] with the message that
    the binary disappeared.  The cache is not cleared: the instance keeps
    returning the vanished binary from [resolve_binary], without a new
    self-check, whatever the machine looks like by then. *)
Theorem execute_binary_disappeared (w : World) (mode context : option string)
    (sbx : option path_or_str) (approve : bool) (timeout : option Z)
    (st : State) (binary : string) (st1 : State) (sp : path) (st2 : State)
    (m : string) (t : option Z) (cmd : list string) :
  resolve_binary w st = (Ok binary, st1) ->
  resolve_sandbox w sbx st1 = (Ok sp, st2) ->
  m = effective_mode_of (settings (self st)) mode ->
  t = effective_timeout_of (settings (self st)) timeout ->
  cmd = build_command binary m sp context false t ->
  mode_supported m = true ->
  approve = true \/ operator_answer w (confirm_prompt m cmd) = Some true ->
  subprocess_run w cmd t = NotFound ->
  execute w mode context sbx false approve timeout st
  = (Raise (CodexUnavailableError "Codex binary disappeared during execution"),
     with_run_call cmd t (after_gate approve m cmd st2))
  /\ forall w',
       resolve_binary w' (with_run_call cmd t (after_gate approve m cmd st2))
       = (Ok binary, with_run_call cmd t (after_gate approve m cmd st2)).
Proof.
  intros Hb Hs -> -> -> Hm Hg Hrun. split.
  - rewrite (execute_resolved _ _ _ _ _ _ _ _ _ _ _ _ Hb Hs), Hm.
    unfold bind. rewrite (confirmation_gate_passed _ _ _ _ _ Hg).
    by rewrite run_command_spawn, Hrun.
  - intros w'. pose proof (resolve_binary_ok_cache _ _ _ _ Hb) as [C T].
    apply (resolve_sandbox_frame) in Hs as (S2 & _).
    apply resolve_binary_cached; [|done].
    cbn [self with_run_call].
    destruct (after_gate_frame approve
                (effective_mode_of (settings (self st)) mode)
                (build_command binary (effective_mode_of (settings (self st)) mode)
                   sp context false (effective_timeout_of (settings (self st)) timeout))
                st2) as (-> & _).
    by rewrite S2.
Qed.

(** The executable verifies but is gone when the run is launched. *)
Lemma execute_binary_disappeared_witness :
  fst (execute (Demo.demo_world NotFound None) None None
         (Some (PStr "/tmp/sbx")) false true None Demo.fresh)
  = Raise (CodexUnavailableError "Codex binary disappeared during execution").
Proof.
  refine (f_equal fst (proj1 (execute_binary_disappeared
            (Demo.demo_world NotFound None) None None (Some (PStr "/tmp/sbx"))
            true None Demo.fresh "/usr/local/bin/tool-x"
            (snd (resolve_binary (Demo.demo_world NotFound None) Demo.fresh))
            ["sbx"; "tmp"]
            (snd (resolve_sandbox (Demo.demo_world NotFound None)
                    (Some (PStr "/tmp/sbx"))
                    (snd (resolve_binary (Demo.demo_world NotFound None)
                            Demo.fresh))))
            "suggest" None _
            _ _ eq_refl eq_refl eq_refl eq_refl (or_introl eq_refl) eq_refl))).
  - vm_compute. reflexivity.
  - vm_compute. reflexivity.
Defined.

(** After binary resolution [execute] never touches the instance again. *)
Lemma execute_self_after_resolution w mode context sbx dry approve timeout
    st binary st1 r st' :
  resolve_binary w st = (Ok binary, st1) ->
  execute w mode context sbx dry approve timeout st = (r, st') ->
  self st' = self st1.
Proof.
  intros Hb H.
  destruct (resolve_sandbox w sbx st1) as [[sp|e] st2] eqn:Hs.
  - pose proof (resolve_sandbox_frame _ _ _ _ _ Hs) as (S2 & _).
    rewrite (execute_resolved _ _ _ _ _ _ _ _ _ _ _ _ Hb Hs) in H.
    destruct (mode_supported _); [|by injection H as _ <-].
    apply gate_then_run_cases in H as [(_ & _ & _ & ->)|(_ & H)]; [done|].
    pose proof (run_command_self w
      (build_command binary (effective_mode_of (settings (self st)) mode) sp
         context dry (effective_timeout_of (settings (self st)) timeout))
      dry (effective_timeout_of (settings (self st)) timeout)
      (after_gate approve (effective_mode_of (settings (self st)) mode)
         (build_command binary (effective_mode_of (settings (self st)) mode) sp
            context dry (effective_timeout_of (settings (self st)) timeout))
         st2)) as Hself.
    rewrite H in Hself. cbn [snd] in Hself. rewrite Hself.
    destruct (after_gate_frame approve
                (effective_mode_of (settings (self st)) mode)
                (build_command binary (effective_mode_of (settings (self st)) mode)
                   sp context dry (effective_timeout_of (settings (self st)) timeout))
                st2) as (-> & _).
    done.
  - unfold execute in H.
    rewrite (bind_ok _ _ _ _ _ Hb), (bind_raise _ _ _ _ _ Hs) in H.
    injection H as _ <-. by apply resolve_sandbox_frame in Hs as (? & _).
Qed.

(** X14: once binary resolution has succeeded inside [execute], the resolved
    path stays cached whatever becomes of the call (a result, a
    cancellation or any error), and every later [execute] on the instance
    starts from the cache: its binary resolution returns that path and runs
    no self-check. *)
Theorem execute_keeps_binary_cached (w : World) (mode context : option string)
    (sbx : option path_or_str) (dry approve : bool) (timeout : option Z)
    (st : State) (binary : string) (st1 : State)
    (r : res CodexRunResult) (st' : State) :
  resolve_binary w st = (Ok binary, st1) ->
  execute w mode context sbx dry approve timeout st = (r, st') ->
  _cached_binary (self st') = Some binary
  /\ settings (self st') = settings (self st)
  /\ _binary_override (self st') = _binary_override (self st)
  /\ forall w', resolve_binary w' st' = (Ok binary, st').
Proof.
  intros Hb H.
  pose proof (execute_self_after_resolution _ _ _ _ _ _ _ _ _ _ _ _ Hb H) as S.
  pose proof (resolve_binary_ok_cache _ _ _ _ Hb) as [C T].
  pose proof (resolve_binary_frame _ _ _ _ Hb) as (? & ? & _).
  rewrite S. repeat split; try done.
  intros w'. apply resolve_binary_cached; [|done]. by rewrite S.
Qed.

(** The operator declines: the binary is cached all the same. *)
Lemma execute_keeps_binary_cached_witness :
  let w := Demo.demo_world NotFound (Some false) in
  let out := execute w None None (Some (PStr "/tmp/sbx")) false false None
               Demo.fresh in
  _cached_binary (self (snd out)) = Some "/usr/local/bin/tool-x"
  /\ settings (self (snd out)) = settings (self Demo.fresh)
  /\ _binary_override (self (snd out)) = _binary_override (self Demo.fresh)
  /\ forall w', resolve_binary w' (snd out) = (Ok "/usr/local/bin/tool-x", snd out).
Proof.
  intros w out.
  apply (execute_keeps_binary_cached w None None (Some (PStr "/tmp/sbx"))
           false false None Demo.fresh "/usr/local/bin/tool-x"
           (snd (resolve_binary w Demo.fresh)) (fst out) (snd out)).
  - vm_compute. reflexivity.
  - vm_compute. reflexivity.
Defined.

Lemma resolve_binary_run_calls w st r st1 :
  resolve_binary w st = (r, st1) ->
  run_calls st1 = run_calls st
  \/ exists b, run_calls st1 = run_calls st ++ [([b; "--version"], None)].
Proof.
  destruct (Py.truthy (_cached_binary (self st))) eqn:T.
  - apply truthy_Some_inv in T as (c & s & T).
    rewrite (resolve_binary_cached w st _ T eq_refl). intros [= <- <-]. by left.
  - rewrite (resolve_binary_uncached _ _ T), try_candidates_cases.
    destruct (first_located w _) as [b|]; [|intros [= <- <-]; by left].
    destruct (verify_result w b); intros [= <- <-]; right; by exists b.
Qed.

(** X15: an execution error raised by [execute] never carries return code
    0.  Its command starts with the resolved binary, and its code is either
    -1 (unsupported mode, timeout) or the non-zero status with which the
    run command really exited. *)
Theorem execute_error_returncode (w : World) (mode context : option string)
    (sbx : option path_or_str) (dry approve : bool) (timeout : option Z)
    (st : State) (e : CodexExecutionError) (st' : State) :
  execute w mode context sbx dry approve timeout st
  = (Raise (ExecutionError e), st') ->
  err_returncode e <> 0
  /\ (exists binary st1,
        resolve_binary w st = (Ok binary, st1)
        /\ head (err_command e) = Some binary)
  /\ (err_returncode e = -1
      \/ exists out err,
           subprocess_run w (err_command e)
             (effective_timeout_of (settings (self st)) timeout)
           = Completed (err_returncode e) out err).
Proof.
  intros H.
  destruct (resolve_binary w st) as [[binary|e1] st1] eqn:Hb.
  2:{ unfold execute in H. rewrite (bind_raise _ _ _ _ _ Hb) in H.
      injection H as -> _. by destruct (resolve_binary_raise _ _ _ _ Hb e). }
  destruct (resolve_sandbox w sbx st1) as [[sp|e2] st2] eqn:Hs.
  2:{ unfold execute in H.
      rewrite (bind_ok _ _ _ _ _ Hb), (bind_raise _ _ _ _ _ Hs) in H.
      injection H as -> _. by destruct (resolve_sandbox_raise _ _ _ _ _ Hs e). }
  rewrite (execute_resolved _ _ _ _ _ _ _ _ _ _ _ _ Hb Hs) in H.
  destruct (mode_supported _).
  - apply gate_then_run_cases in H as [(_ & _ & ? & _)|(_ & H)]; [done|].
    destruct dry; [by rewrite run_command_dry in H|].
    rewrite run_command_spawn in H.
    destruct (subprocess_run w _ _) as [rc out err|out err| |x] eqn:R;
      [case_bool_decide|destruct (Py.truthy err)|..];
      try discriminate H; injection H as <- _;
      cbn [err_returncode err_command].
    + split; [done|]. split; [|right; eauto].
      exists binary, st1. split; [done|]. apply build_command_head.
    + split; [done|]. split; [|by left].
      exists binary, st1. split; [done|]. apply build_command_head.
  - injection H as <- _. cbn [err_returncode err_command].
    split; [done|]. split; [|by left]. by exists binary, st1.
Qed.

(** The process exits with status 3. *)
Lemma execute_error_returncode_witness :
  (3 : Z) <> 0
  /\ (exists binary st1,
        resolve_binary (Demo.demo_world (Completed 3 "partial" "fatal") None)
          Demo.fresh = (Ok binary, st1)
        /\ Some "/usr/local/bin/tool-x" = Some binary)
  /\ ((3 : Z) = -1
      \/ exists out err,
           subprocess_run (Demo.demo_world (Completed 3 "partial" "fatal") None)
             ["/usr/local/bin/tool-x"; "run"; "--mode"; "suggest"; "--sandbox";
              "/tmp/sbx"]
             (effective_timeout_of (settings (self Demo.fresh)) None)
           = Completed 3 out err).
Proof.
  apply (execute_error_returncode
           (Demo.demo_world (Completed 3 "partial" "fatal") None) None None
           (Some (PStr "/tmp/sbx")) false true None Demo.fresh
           {| err_command := ["/usr/local/bin/tool-x"; "run"; "--mode"; "suggest";
                              "--sandbox"; "/tmp/sbx"];
              err_returncode := 3; err_stdout := "partial"; err_stderr := "fatal";
              err_message := "Codex execution failed" |}
           (snd (execute (Demo.demo_world (Completed 3 "partial" "fatal") None)
                   None None (Some (PStr "/tmp/sbx")) false true None Demo.fresh))).
  vm_compute. reflexivity.
Defined.

(** X16: whatever its outcome, [execute] runs at most two processes, in
    this order: the self-check of binary resolution and the run command.
    The run command is only ever run when the call is not a dry run, the
    mode is supported and the gate let it through: the caller pre-approved
    it, or the operator answered yes to the prompt that displays exactly
    the command that is then run. *)
Theorem execute_runs_only_what_was_approved (w : World)
    (mode context : option string) (sbx : option path_or_str)
    (dry approve : bool) (timeout : option Z) (st : State)
    (r : res CodexRunResult) (st' : State) :
  execute w mode context sbx dry approve timeout st = (r, st') ->
  exists sc rn,
    run_calls st' = run_calls st ++ sc ++ rn
    /\ (sc = [] \/ exists b, sc = [([b; "--version"], None)])
    /\ (rn = []
        \/ exists binary st1 sp st2 cmd,
             resolve_binary w st = (Ok binary, st1)
             /\ resolve_sandbox w sbx st1 = (Ok sp, st2)
             /\ cmd = build_command binary
                        (effective_mode_of (settings (self st)) mode) sp context
                        dry (effective_timeout_of (settings (self st)) timeout)
             /\ rn = [(cmd, effective_timeout_of (settings (self st)) timeout)]
             /\ dry = false
             /\ mode_supported (effective_mode_of (settings (self st)) mode) = true
             /\ (approve = true
                 \/ (operator_answer w
                       (confirm_prompt
                          (effective_mode_of (settings (self st)) mode) cmd)
                     = Some true
                     /\ prompts st'
                        = prompts st
                          ++ [(confirm_prompt
                                 (effective_mode_of (settings (self st)) mode) cmd,
                               false)]))).
Proof.
  intros H.
  destruct (resolve_binary w st) as [[binary|e1] st1] eqn:Hb.
  2:{ unfold execute in H. rewrite (bind_raise _ _ _ _ _ Hb) in H.
      injection H as _ <-.
      destruct (resolve_binary_run_calls _ _ _ _ Hb) as [R|[b R]].
      - exists [], []. rewrite R, !app_nil_r. repeat split; auto.
      - exists [([b; "--version"], None)], []. rewrite R, app_nil_r.
        repeat split; eauto. }
  assert (Hsc : exists sc, run_calls st1 = run_calls st ++ sc
                  /\ (sc = [] \/ exists b, sc = [([b; "--version"], None)])).
  { destruct (resolve_binary_run_calls _ _ _ _ Hb) as [R|[b R]].
    - exists []. rewrite R, app_nil_r. split; auto.
    - exists [([b; "--version"], None)]. split; eauto. }
  destruct Hsc as (sc & Hsc & Hform).
  pose proof (resolve_binary_frame _ _ _ _ Hb) as (_ & _ & _ & P1).
  destruct (resolve_sandbox w sbx st1) as [[sp|e2] st2] eqn:Hs.
  2:{ unfold execute in H.
      rewrite (bind_ok _ _ _ _ _ Hb), (bind_raise _ _ _ _ _ Hs) in H.
      injection H as _ <-.
      apply resolve_sandbox_frame in Hs as (_ & R2 & _).
      exists sc, []. rewrite R2, Hsc, app_nil_r. repeat split; auto. }
  pose proof (resolve_sandbox_frame _ _ _ _ _ Hs) as (_ & R2 & P2).
  rewrite (execute_resolved _ _ _ _ _ _ _ _ _ _ _ _ Hb Hs) in H.
  destruct (mode_supported _) eqn:Hm.
  2:{ injection H as _ <-. exists sc, []. rewrite R2, Hsc, app_nil_r.
      repeat split; auto. }
  set (m := effective_mode_of _ _) in *.
  set (t := effective_timeout_of _ _) in *.
  set (cmd := build_command binary m sp context dry t) in *.
  apply gate_then_run_cases in H as [(_ & _ & _ & ->)|(Hg & H)].
  { exists sc, []. cbn [run_calls with_prompt]. rewrite R2, Hsc, app_nil_r.
    repeat split; auto. }
  pose proof (run_command_frame w cmd dry t (after_gate approve m cmd st2))
    as (FP & _ & FR).
  rewrite H in FP, FR. cbn [snd] in FP, FR.
  destruct (after_gate_frame approve m cmd st2) as (_ & _ & AR).
  rewrite AR, R2, Hsc in FR.
  destruct dry.
  - exists sc, []. rewrite FR, <- app_assoc. repeat split; auto.
  - exists sc, [(cmd, t)]. rewrite FR, <- app_assoc.
    split; [done|]. split; [done|].
    right. exists binary, st1, sp, st2, cmd. repeat split; try done.
    destruct approve; [by left|right].
    destruct Hg as [?|Hg]; [done|]. split; [done|].
    rewrite FP. cbn [after_gate prompts with_prompt]. by rewrite P2, P1.
Qed.

(** A dry run on a fresh instance runs the self-check and nothing else. *)
Lemma execute_runs_only_what_was_approved_witness :
  let w := Demo.demo_world (Completed 0 "ok" EmptyString) None in
  let out := execute w None None (Some (PStr "/tmp/sbx")) true true None
               Demo.fresh in
  exists sc rn,
    run_calls (snd out) = run_calls Demo.fresh ++ sc ++ rn
    /\ (sc = [] \/ exists b, sc = [([b; "--version"], None)])
    /\ (rn = []
        \/ exists binary st1 sp st2 cmd,
             resolve_binary w Demo.fresh = (Ok binary, st1)
             /\ resolve_sandbox w (Some (PStr "/tmp/sbx")) st1 = (Ok sp, st2)
             /\ cmd = build_command binary
                        (effective_mode_of (settings (self Demo.fresh)) None) sp
                        None true
                        (effective_timeout_of (settings (self Demo.fresh)) None)
             /\ rn = [(cmd, effective_timeout_of (settings (self Demo.fresh)) None)]
             /\ true = false
             /\ mode_supported
                  (effective_mode_of (settings (self Demo.fresh)) None) = true
             /\ (true = true
                 \/ (operator_answer w
                       (confirm_prompt
                          (effective_mode_of (settings (self Demo.fresh)) None) cmd)
                     = Some true
                     /\ prompts (snd out)
                        = prompts Demo.fresh
                          ++ [(confirm_prompt
                                 (effective_mode_of (settings (self Demo.fresh)) None)
                                 cmd,
                               false)]))).
Proof.
  intros w out.
  apply (execute_runs_only_what_was_approved w None None (Some (PStr "/tmp/sbx"))
           true true None Demo.fresh (fst out) (snd out)).
  vm_compute. reflexivity.
Defined.

(** ** The argument vector and its display (lines 50-53, 174-185) *)

Lemma str_of_int_inj (a b : Z) : Py.str_of_int a = Py.str_of_int b -> a = b.
Proof.
  unfold Py.str_of_int. intros H.
  assert (N : forall z, Z.to_int z <> Decimal.Pos Decimal.Nil
                        /\ Z.to_int z <> Decimal.Neg Decimal.Nil).
  { intros [|p|p]; simpl; split; try discriminate;
      intros [= E]; by apply DecimalPos.Unsigned.to_uint_nonnil in E. }
  apply (f_equal NilZero.int_of_string) in H.
  rewrite !NilZero.isi in H by apply N.
  injection H as H. apply (f_equal Z.of_int) in H.
  by rewrite !DecimalZ.of_to in H.
Qed.

(** X17: the argument vector determines the options it was built from.  Two
    calls of the command builder give the same vector only if they agree on
    the binary, the mode, the sandbox, the dry-run flag, the effective
    timeout and the context (where no context and the empty context count
    as the same): no value of one option can pass for another option. *)
Theorem build_command_injective (binary binary' m m' : string) (sp sp' : path)
    (context context' : option string) (dry dry' : bool) (t t' : option Z) :
  build_command binary m sp context dry t
  = build_command binary' m' sp' context' dry' t' ->
  binary = binary'
  /\ m = m'
  /\ path_str sp = path_str sp'
  /\ (if Py.truthy context then context else None)
     = (if Py.truthy context' then context' else None)
  /\ dry = dry'
  /\ t = t'.
Proof.
  unfold build_command.
  destruct context as [[|c r]|], dry, t as [n|],
           context' as [[|c' r']|], dry', t' as [n'|];
    cbn [app Py.truthy]; intros H; simplify_eq/=;
    repeat split; try done;
    repeat match goal with
           | E : Py.str_of_int _ = Py.str_of_int _ |- _ =>
               apply str_of_int_inj in E; subst
           end; try done; unfold path_str; congruence.
Qed.

(** No context and the empty context give the same vector. *)
Lemma build_command_injective_witness :
  "/usr/bin/codex" = "/usr/bin/codex"
  /\ "auto" = "auto"
  /\ path_str ["sbx"; "tmp"] = path_str ["sbx"; "tmp"]
  /\ (if Py.truthy None then None else None)
     = (if Py.truthy (Some EmptyString) then Some EmptyString else None)
  /\ false = false
  /\ Some 30 = Some 30.
Proof.
  apply (build_command_injective "/usr/bin/codex" "/usr/bin/codex" "auto" "auto"
           ["sbx"; "tmp"] ["sbx"; "tmp"] None (Some EmptyString) false false
           (Some 30) (Some 30)).
  reflexivity.
Defined.

Lemma append_cons (c : ascii) (a b : string) :
  String c a +:+ b = String c (a +:+ b).
Proof. reflexivity. Qed.

Lemma append_length (a b : string) :
  String.length (a +:+ b) = (String.length a + String.length b)%nat.
Proof.
  induction a as [|c a IH]; [reflexivity|].
  rewrite append_cons. cbn [String.length]. by rewrite IH.
Qed.

Lemma append_inj_r (a b c : string) : a +:+ c = b +:+ c -> a = b.
Proof.
  revert b. induction a as [|x a IH]; intros [|y b] H; [done|..].
  - apply (f_equal String.length) in H.
    rewrite !append_length in H. cbn [String.length] in H. lia.
  - apply (f_equal String.length) in H.
    rewrite !append_length in H. cbn [String.length] in H. lia.
  - rewrite !append_cons in H. injection H as -> H. f_equal. by apply IH.
Qed.

Lemma escape_squotes_quote (r : string) :
  Py.escape_squotes (String "'" r)
  = String "'" (String (ascii_of_nat 34) (String "'" (String (ascii_of_nat 34)
      (String "'" (Py.escape_squotes r))))).
Proof. reflexivity. Qed.

Lemma escape_squotes_other (c : ascii) (r : string) :
  c <> "'"%char ->
  Py.escape_squotes (String c r) = String c (Py.escape_squotes r).
Proof.
  intros H. cbn [Py.escape_squotes]. by rewrite bool_decide_eq_false_2.
Qed.

Lemma escape_squotes_inj (s s' : string) :
  Py.escape_squotes s = Py.escape_squotes s' -> s = s'.
Proof.
  revert s'. induction s as [|c r IH]; intros [|c' r'].
  - done.
  - destruct (decide (c' = "'"%char)) as [->|Hc'].
    + rewrite escape_squotes_quote. discriminate.
    + rewrite (escape_squotes_other _ _ Hc'). discriminate.
  - destruct (decide (c = "'"%char)) as [->|Hc].
    + rewrite escape_squotes_quote. discriminate.
    + rewrite (escape_squotes_other _ _ Hc). discriminate.
  - destruct (decide (c = "'"%char)) as [->|Hc],
             (decide (c' = "'"%char)) as [->|Hc'].
    + rewrite !escape_squotes_quote. intros [= H]. f_equal. by apply IH.
    + rewrite escape_squotes_quote, (escape_squotes_other _ _ Hc').
      intros [= <- _]. done.
    + rewrite escape_squotes_quote, (escape_squotes_other _ _ Hc).
      intros [= -> _]. done.
    + rewrite (escape_squotes_other _ _ Hc), (escape_squotes_other _ _ Hc').
      intros [= -> H]. f_equal. by apply IH.
Qed.

Lemma all_safe_no_quote (r : string) :
  Py.all_safe (String "'" r) = false.
Proof. reflexivity. Qed.

(** The three shapes of a quoted argument. *)
Lemma shlex_quote_cases (s : string) :
  (s = EmptyString /\ Py.shlex_quote s = "''")
  \/ (s <> EmptyString /\ Py.all_safe s = true /\ Py.shlex_quote s = s)
  \/ (s <> EmptyString /\ Py.all_safe s = false
      /\ Py.shlex_quote s = String "'" (Py.escape_squotes s +:+ "'")).
Proof.
  destruct s as [|c r]; [by left|right].
  unfold Py.shlex_quote. destruct (Py.all_safe (String c r)); [left|right]; done.
Qed.

(** X18: shell quoting loses nothing: two arguments with the same quoted
    form are the same argument.  In particular the empty argument, an
    argument of safe characters and an argument that needs quotes never
    display alike. *)
Theorem shlex_quote_injective (s s' : string) :
  Py.shlex_quote s = Py.shlex_quote s' -> s = s'.
Proof.
  destruct (shlex_quote_cases s) as [(-> & ->)|[(Hs & As & ->)|(Hs & As & ->)]],
           (shlex_quote_cases s') as [(-> & ->)|[(Hs' & As' & ->)|(Hs' & As' & ->)]];
    try done.
  - intros <-. rewrite all_safe_no_quote in As'. discriminate As'.
  - intros [= H]. change "'" with (EmptyString +:+ "'") in H at 1.
    apply append_inj_r in H. destruct s' as [|c r]; [done|].
    destruct (decide (c = "'"%char)) as [->|Hc].
    + rewrite escape_squotes_quote in H. discriminate H.
    + rewrite (escape_squotes_other _ _ Hc) in H. discriminate H.
  - intros ->. rewrite all_safe_no_quote in As. discriminate As.
  - intros ->. rewrite all_safe_no_quote in As. discriminate As.
  - intros [= H]. change "'" with (EmptyString +:+ "'") in H at 2.
    apply append_inj_r in H. destruct s as [|c r]; [done|].
    destruct (decide (c = "'"%char)) as [->|Hc].
    + rewrite escape_squotes_quote in H. discriminate H.
    + rewrite (escape_squotes_other _ _ Hc) in H. discriminate H.
  - intros <-. rewrite all_safe_no_quote in As'. discriminate As'.
  - intros [= H]. by apply append_inj_r, escape_squotes_inj in H.
Qed.

Lemma shlex_quote_injective_witness :
  "fix it's" = "fix it's".
Proof.
  apply (shlex_quote_injective "fix it's" "fix it's"). reflexivity.
Defined.

(** X19: when [execute] returns a result without having been pre-approved,
    the operator was shown exactly one prompt and answered yes to it, and
    that prompt displayed the command of the result as [command_display]
    renders it, under the wording of the mode that was used. *)
Theorem execute_result_was_displayed (w : World) (mode context : option string)
    (sbx : option path_or_str) (dry : bool) (timeout : option Z)
    (st : State) (r : CodexRunResult) (st' : State) :
  execute w mode context sbx dry false timeout st = (Ok r, st') ->
  prompts st'
  = prompts st
    ++ [((if bool_decide (effective_mode_of (settings (self st)) mode = "auto")
          then "Codex will run in AUTO mode. Proceed?"
          else "Execute Codex in SUGGEST mode?")
         +:+ Py.newline +:+ command_display (command r)
         +:+ Py.newline +:+ "Continue?",
         false)]
  /\ operator_answer w
       (confirm_prompt (effective_mode_of (settings (self st)) mode) (command r))
     = Some true.
Proof.
  intros H. pose proof H as (binary & st1 & sp & st2 & Hb & Hs)%execute_ok_resolved.
  pose proof (resolve_binary_frame _ _ _ _ Hb) as (_ & _ & _ & P1).
  pose proof (resolve_sandbox_frame _ _ _ _ _ Hs) as (_ & _ & P2).
  rewrite (execute_resolved _ _ _ _ _ _ _ _ _ _ _ _ Hb Hs) in H.
  destruct (mode_supported _); [|discriminate].
  apply gate_then_run_cases in H as [(_ & _ & ? & _)|(Hg & H)]; [done|].
  destruct Hg as [?|Hg]; [done|].
  apply run_command_ok_command in H as [-> ->].
  split; [|done]. cbn [after_gate prompts with_prompt]. by rewrite P2, P1.
Qed.

(** The operator approves a dry run in auto mode with a context that needs
    quoting. *)
Lemma execute_result_was_displayed_witness :
  prompts (snd (execute (Demo.demo_world NotFound (Some true)) (Some "auto")
                  (Some "fix it's") (Some (PStr "/tmp/sbx")) true false None
                  Demo.fresh))
  = prompts Demo.fresh
    ++ [((if bool_decide
               (effective_mode_of (settings (self Demo.fresh)) (Some "auto") = "auto")
          then "Codex will run in AUTO mode. Proceed?"
          else "Execute Codex in SUGGEST mode?")
         +:+ Py.newline
         +:+ command_display
               ["/usr/local/bin/tool-x"; "run"; "--mode"; "auto"; "--sandbox";
                "/tmp/sbx"; "--context"; "fix it's"; "--dry-run"]
         +:+ Py.newline +:+ "Continue?",
         false)].
Proof.
  refine (proj1 (execute_result_was_displayed
            (Demo.demo_world NotFound (Some true)) (Some "auto")
            (Some "fix it's") (Some (PStr "/tmp/sbx")) true None Demo.fresh
            {| command := ["/usr/local/bin/tool-x"; "run"; "--mode"; "auto";
                           "--sandbox"; "/tmp/sbx"; "--context"; "fix it's";
                           "--dry-run"];
               returncode := None; stdout := EmptyString; stderr := EmptyString;
               dry_run := true |}
            _ _)).
  vm_compute. reflexivity.
Defined.

(** X20: the message of a failed [resolve_binary] tells the cause.  When no
    candidate is found anywhere it is the message that names the knobs, and
    nothing was run.  When the first candidate found cannot be launched
    because the file is not found, it is the not-found message.  When its
    self-check exits non-zero the message quotes the path and the
    self-check's error output, or its standard output when the error output
    is empty, with the whitespace [str.strip] removes (Unicode whitespace
    included) taken off both ends. *)
Theorem resolve_binary_diagnostics (w : World) (st : State) (msg : string)
    (st' : State) :
  resolve_binary w st = (Raise (CodexUnavailableError msg), st') ->
  (first_located w (candidates_of (self st)) = None
   /\ msg = "Unable to locate the Codex CLI. Set AMPLIFIER_CODEX_BIN or use --codex-bin."
   /\ st' = st)
  \/ (exists b,
        first_located w (candidates_of (self st)) = Some b
        /\ st' = with_run_call [b; "--version"] None st
        /\ ((spawn w [b; "--version"] = SpawnNotFound
             /\ msg = "Codex binary not found")
            \/ (exists rc out err,
                  spawn w [b; "--version"] = Exits rc out err
                  /\ rc <> 0
                  /\ msg = "Codex binary at '" +:+ b +:+ "' is not executable: "
                           +:+ Py.strip (if bool_decide (err = EmptyString)
                                         then out else err)))).
Proof.
  destruct (Py.truthy (_cached_binary (self st))) eqn:T.
  - apply truthy_Some_inv in T as (c & r & T).
    by rewrite (resolve_binary_cached w st _ T eq_refl).
  - rewrite (resolve_binary_uncached _ _ T), try_candidates_cases.
    destruct (first_located w _) as [b|]; [|intros [= <- <-]; by left].
    unfold verify_result.
    destruct (spawn w [b; "--version"]) as [rc out err| |x] eqn:R.
    + case_bool_decide as Hrc; [discriminate|]. intros [= <- <-].
      right. exists b. repeat split. right. exists rc, out, err.
      repeat split; try done. unfold msg_not_executable. do 3 f_equal.
      destruct err as [|c e]; [by destruct out|done].
    + intros [= <- <-]. right. exists b. repeat split. by left.
    + discriminate.
Qed.

(** The padded complaint is quoted without the no-break spaces and the
    newline around it. *)
Lemma resolve_binary_diagnostics_witness :
  let w := Cases.padded_world in
  let st := Demo.demo_state Demo.demo_settings (Some "/opt/padded/codex") in
  let msg := "Codex binary at '/opt/padded/codex' is not executable: denied" in
  (first_located w (candidates_of (self st)) = None
   /\ msg = "Unable to locate the Codex CLI. Set AMPLIFIER_CODEX_BIN or use --codex-bin."
   /\ snd (resolve_binary w st) = st)
  \/ (exists b,
        first_located w (candidates_of (self st)) = Some b
        /\ snd (resolve_binary w st) = with_run_call [b; "--version"] None st
        /\ ((spawn w [b; "--version"] = SpawnNotFound
             /\ msg = "Codex binary not found")
            \/ (exists rc out err,
                  spawn w [b; "--version"] = Exits rc out err
                  /\ rc <> 0
                  /\ msg = "Codex binary at '" +:+ b +:+ "' is not executable: "
                           +:+ Py.strip (if bool_decide (err = EmptyString)
                                         then out else err)))).
Proof.
  intros w st msg.
  apply (resolve_binary_diagnostics w st msg (snd (resolve_binary w st))).
  vm_compute. reflexivity.
Defined.
